(** * Station-Manager: the audit / activity-tracking subsystem

    A shallow embedding of
      - [src/middleware/auditLogger.ts]      (interception adapter, [logAuditEvent]),
      - [controllers/auditLogController.ts]  (recorder write path and query engine),
      - [routes/auditLogs.ts], [routes/stations.ts], [routes/backupReminders.ts],
      - [createStation] of [controllers/stationController.ts] and
        [changePassword] of [controllers/authController.ts], two audited
        business operations,
    followed by the properties of the audit subsystem proved about it. *)

From Stdlib Require Import ZArith QArith Bool Ascii String List Lia.
From stdpp Require Import base option list strings pretty gmap sorting.

Set Warnings "-register-all".

Local Open Scope Z_scope.
Local Open Scope string_scope.

(** ** JavaScript values

    Request context ([(req as any).user]), response payloads after
    [JSON.parse], and the arguments that reach [createAuditLog] are untyped at
    run time; they are modelled by one tagged type.  Numbers are the finite
    ones (the only ones JSON can denote). *)
Module JS.

Inductive value : Type :=
| VUndefined
| VNull
| VBool (b : bool)
| VNum (q : Q)
| VStr (s : string)
| VArr (items : list value)
| VObj (fields : list (string * value)).

(** [ToBoolean]: what [if (v)] and [v && ...] test. *)
Definition truthy (v : value) : bool :=
  match v with
  | VUndefined | VNull => false
  | VBool b => b
  | VNum q => negb (Qeq_bool q 0)
  | VStr s => negb (String.eqb s "")
  | VArr _ | VObj _ => true
  end.

Fixpoint assoc (k : string) (fields : list (string * value)) : value :=
  match fields with
  | [] => VUndefined
  | (k', v) :: rest => if String.eqb k k' then v else assoc k rest
  end.

(** The result of evaluating an expression: a value, or a thrown exception. *)
Inductive outcome (A : Type) : Type :=
| Ret (a : A)
| Throw (err : string).
Arguments Ret {A} a.
Arguments Throw {A} err.

(** Property read [v.k].  Reading a property of [undefined] or [null] throws
    a TypeError; a primitive or an array has none of the property names this
    program reads ([user], [userId], [data], [id], [headers], ...). *)
Definition get (v : value) (k : string) : outcome value :=
  match v with
  | VUndefined | VNull => Throw "TypeError"
  | VObj fields => Ret (assoc k fields)
  | VBool _ | VNum _ | VStr _ | VArr _ => Ret VUndefined
  end.

(** Optional chaining [v?.k]. *)
Definition get_opt (v : value) (k : string) : value :=
  match v with
  | VObj fields => assoc k fields
  | _ => VUndefined
  end.

(** [a || b] on values. *)
Definition or_else (a b : value) : value := if truthy a then a else b.

End JS.
Export JS.

(** ** Persistent state: the relational store *)

Record User := {
  user_id : string;
  firstName : string;
  lastName : string;
  username : string;
  password : string;
  user_status : string
}.

(** The attributes an [include] of the user selects:
    [['id', 'firstName', 'lastName', 'username']]. *)
Record UserInfo := {
  ui_id : string;
  ui_firstName : string;
  ui_lastName : string;
  ui_username : string
}.

#[global] Instance UserInfo_eq_dec : EqDecision UserInfo.
Proof. solve_decision. Defined.

Definition user_info (u : User) : UserInfo :=
  {| ui_id := user_id u; ui_firstName := firstName u; ui_lastName := lastName u;
     ui_username := username u |}.

(** A row of the [AuditLogs] table ([models/auditlog.ts], migration
    [create-audit-log]).  Timestamps are milliseconds since the epoch. *)
Record AuditLog := {
  id : string;
  userId : string;
  action : string;
  targetType : string;
  targetId : string;
  timestamp : Z;
  ipAddress : string;
  createdAt : Z;
  updatedAt : Z
}.

Record Station := {
  station_id : string;
  stationName : string;
  serialNumber : string;
  location : string;
  createdBy : string
}.

(** [AuditLogs] is kept in insertion order.  [connected] is the state of the
    database connection; [AuditLogs_writable] is the availability of the Event
    Store for inserts (when [false] every insert into [AuditLogs] is rejected,
    whatever the reason). *)
Record Database := {
  AuditLogs : list AuditLog;
  Users : list User;
  Stations : list Station;
  connected : bool;
  AuditLogs_writable : bool
}.

(** The arguments of one call [createAuditLog(userId, action, targetType,
    targetId, ipAddress)].  The TypeScript signature says [string] five times,
    but [userId], [targetId] and [ipAddress] come from [any]-typed contexts. *)
Record AuditLogCall := {
  call_userId : value;
  call_action : string;
  call_targetType : string;
  call_targetId : value;
  call_ipAddress : value
}.

(** A promise started by [createAuditLog(...)] and not awaited: the arguments
    and the [new Date()] read when the call was made. *)
Record PendingWrite := {
  pw_call : AuditLogCall;
  pw_timestamp : Z
}.

(** The process: store, the operational diagnostics channel
    ([console.error]), the wall clock read by [new Date()], the source of
    [UUIDV4] identifiers, and the promises started but not yet settled. *)
Record World := {
  db : Database;
  console : list string;
  clock : Z;
  uuid_source : nat -> string;
  uuid_drawn : nat;
  pending : list PendingWrite
}.

Definition with_db (d : Database) (w : World) : World :=
  {| db := d; console := console w; clock := clock w;
     uuid_source := uuid_source w; uuid_drawn := uuid_drawn w; pending := pending w |}.

Definition with_console (c : list string) (w : World) : World :=
  {| db := db w; console := c; clock := clock w;
     uuid_source := uuid_source w; uuid_drawn := uuid_drawn w; pending := pending w |}.

Definition with_pending (p : list PendingWrite) (w : World) : World :=
  {| db := db w; console := console w; clock := clock w;
     uuid_source := uuid_source w; uuid_drawn := uuid_drawn w; pending := p |}.

(** ** Effects: a state-and-exception monad over [World] *)

Definition M (A : Type) : Type := World -> outcome A * World.

Definition ret {A} (a : A) : M A := fun w => (Ret a, w).

Definition throw {A} (err : string) : M A := fun w => (Throw err, w).

Definition bind {A B} (m : M A) (k : A -> M B) : M B :=
  fun w =>
    match m w with
    | (Ret a, w') => k a w'
    | (Throw e, w') => (Throw e, w')
    end.

(** [try { m } catch (error) { h error }]. *)
Definition try_catch {A} (m : M A) (h : string -> M A) : M A :=
  fun w =>
    match m w with
    | (Ret a, w') => (Ret a, w')
    | (Throw e, w') => h e w'
    end.

(** A pure expression that may throw, evaluated in place. *)
Definition lift {A} (o : outcome A) : M A := fun w => (o, w).

Declare Scope js_scope.
Delimit Scope js_scope with js.
Notation "x <- m ;; k" := (bind m (fun x => k))
  (at level 100, m at next level, right associativity) : js_scope.
Notation "m ;;; k" := (bind m (fun _ => k))
  (at level 100, right associativity) : js_scope.
Local Open Scope js_scope.

Definition console_error (msg : string) : M unit :=
  fun w => (Ret tt, with_console (console w ++ [msg]) w).

(** [new Date()]. *)
Definition new_Date : M Z := fun w => (Ret (clock w), w).

(** [DataTypes.UUIDV4]. *)
Definition draw_uuid : M string :=
  fun w => (Ret (uuid_source w (uuid_drawn w)),
            {| db := db w; console := console w; clock := clock w;
               uuid_source := uuid_source w; uuid_drawn := S (uuid_drawn w);
               pending := pending w |}).

Definition read_db : M Database := fun w => (Ret (db w), w).

Definition write_db (d : Database) : M unit := fun w => (Ret tt, with_db d w).

(** ** The ORM calls the program makes *)

Definition as_string (v : value) : option string :=
  match v with VStr s => Some s | _ => None end.

Definition find_user (uid : string) (us : list User) : option User :=
  List.find (fun u => String.eqb (user_id u) uid) us.

(** Every query needs the connection. *)
Definition require_connection : M Database :=
  d <- read_db ;;
  if connected d then ret d else throw "SequelizeConnectionError".

(** [AuditLog.create({userId, action, targetType, targetId, timestamp,
    ipAddress})].  The insert is rejected when the connection or the table is
    unavailable, when an attribute declared [UUID]/[STRING] is not a string,
    when [userId] references no row of [Users] (foreign key with
    [onDelete: 'RESTRICT'] in the migration), and when the generated primary
    key is taken.  Otherwise one row is appended;
    no existing row is touched. *)
Definition AuditLog_create (c : AuditLogCall) (ts : Z) : M AuditLog :=
  d <- require_connection ;;
  if negb (AuditLogs_writable d) then throw "SequelizeDatabaseError" else
  match as_string (call_userId c), as_string (call_targetId c),
        as_string (call_ipAddress c) with
  | Some uid, Some tid, Some ip =>
      match find_user uid (Users d) with
      | None => throw "SequelizeForeignKeyConstraintError"
      | Some _ =>
          new_id <- draw_uuid ;;
          if existsb (fun r => String.eqb (id r) new_id) (AuditLogs d)
          then throw "SequelizeUniqueConstraintError" else
          now <- new_Date ;;
          let row := {| id := new_id; userId := uid; action := call_action c;
                        targetType := call_targetType c; targetId := tid;
                        timestamp := ts; ipAddress := ip;
                        createdAt := now; updatedAt := now |} in
          write_db {| AuditLogs := AuditLogs d ++ [row]; Users := Users d;
                      Stations := Stations d; connected := connected d;
                      AuditLogs_writable := AuditLogs_writable d |} ;;;
          ret row
      end
  | _, _, _ => throw "SequelizeValidationError"
  end.

(** [User.findByPk(id)]. *)
Definition User_findByPk (uid : string) : M (option User) :=
  d <- require_connection ;;
  ret (find_user uid (Users d)).

(** ** Recorder: [createAuditLog] (auditLogController.ts) *)

(** The body of the [async] function once its arguments and [new Date()] are
    evaluated: [try { await AuditLog.create(...) } catch (error) {
    console.error(...) }]. *)
Definition createAuditLog_settle (p : PendingWrite) : M unit :=
  try_catch
    (AuditLog_create (pw_call p) (pw_timestamp p) ;;; ret tt)
    (fun _ => console_error "Error creating audit log:").

(** [await createAuditLog(userId, action, targetType, targetId, ipAddress)]. *)
Definition createAuditLog (userId : value) (action targetType : string)
    (targetId ipAddress : value) : M unit :=
  ts <- new_Date ;;
  createAuditLog_settle
    {| pw_call := {| call_userId := userId; call_action := action;
                     call_targetType := targetType; call_targetId := targetId;
                     call_ipAddress := ipAddress |};
       pw_timestamp := ts |}.

(** [createAuditLog(...).catch(handler)] without [await]: the call is made
    (arguments and [new Date()] evaluated) and its promise is left to the
    event loop. *)
Definition createAuditLog_detached (userId : value) (action targetType : string)
    (targetId ipAddress : value) : M unit :=
  ts <- new_Date ;;
  fun w =>
    (Ret tt,
     with_pending
       (pending w ++
        [{| pw_call := {| call_userId := userId; call_action := action;
                          call_targetType := targetType; call_targetId := targetId;
                          call_ipAddress := ipAddress |};
            pw_timestamp := ts |}]) w).

(** The event loop settling the detached promises, oldest first, each with
    the [.catch(error => console.error(...))] the adapter attached. *)
Fixpoint settle_all (ps : list PendingWrite) : M unit :=
  match ps with
  | [] => ret tt
  | p :: rest =>
      try_catch (createAuditLog_settle p)
                (fun _ => console_error "Failed to create audit log:") ;;;
      settle_all rest
  end.

Definition run_pending : M unit :=
  fun w => settle_all (pending w) (with_pending [] w).

(** ** Requests and responses as the handlers see them *)

(** Query-string parameters as the libraries read them.  [page], [limit] and
    [days] range over integer numerals; a date text either is an ISO-8601 date
    (with its instant in milliseconds) or is not; an identifier text either is
    a GUID or is not.  [q_other] lists, in the order of the query string, the
    keys no handler knows, and [q_days_rank] says how many of them come before
    [days]: a validator reports the first key it does not know. *)
Inductive DateText := ISODate (ms : Z) | NotISODate (raw : string).
Inductive GuidText := Guid (s : string) | NotGuid (s : string).

Definition guid_raw (g : GuidText) : string :=
  match g with Guid s => s | NotGuid s => s end.

Record Query := {
  q_page : option Z;
  q_limit : option Z;
  q_userId : option GuidText;
  q_action : option string;
  q_targetType : option string;
  q_targetId : option GuidText;
  q_startDate : option DateText;
  q_endDate : option DateText;
  q_search : option string;
  q_days : option Z;
  q_other : list string;
  q_days_rank : nat
}.

(** An Express request: the context set by [authenticateToken]
    ([req.user], absent for an anonymous request), route parameters, the
    transport metadata [getClientIP] reads, and the query string. *)
Record Request := {
  req_user : value;
  params : gmap string string;
  header_x_forwarded_for : option string;
  connection_remoteAddress : option string;
  socket_remoteAddress : option string;
  query : Query;
  req_body : list (string * value)
}.

Record Res := { statusCode : Z }.

(** What a handler hands to [res.send]: any JavaScript value, or a Buffer. *)
Inductive body :=
| BodyValue (v : value)
| BodyBuffer (bytes : list Byte.byte).

(** ** [getClientIP] (auditLogController.ts) *)

(** [s.split(',')[0]]. *)
Fixpoint first_entry (s : string) : string :=
  match s with
  | EmptyString => EmptyString
  | String c rest => if Ascii.eqb c "," then EmptyString else String c (first_entry rest)
  end.

Definition nonempty (s : string) : bool := negb (String.eqb s "").

(** [s.length]: the number of UTF-16 code units of a text, which is held here
    as its UTF-8 bytes.  A continuation byte adds nothing to the count of its
    sequence, and a sequence of four bytes is a surrogate pair. *)
Fixpoint js_length (s : string) : nat :=
  match s with
  | EmptyString => 0
  | String c rest =>
      let n := nat_of_ascii c in
      if (n <? 128)%nat then S (js_length rest)
      else if (n <? 192)%nat then js_length rest
      else if (n <? 240)%nat then S (js_length rest)
      else match rest with
           | EmptyString => 1
           | String _ rest' => S (S (js_length rest'))
           end
  end.

(** [a || b] where [a] is a string or [undefined]. *)
Definition str_or (a : option string) (b : string) : string :=
  match a with
  | Some s => if nonempty s then s else b
  | None => b
  end.

Definition getClientIP (req : Request) : string :=
  str_or (first_entry <$> header_x_forwarded_for req)
    (str_or (connection_remoteAddress req)
       (str_or (socket_remoteAddress req) "0.0.0.0")).

(** The same function on whatever value is passed as [req] at run time. *)
Definition obind {A B} (o : outcome A) (k : A -> outcome B) : outcome B :=
  match o with Ret a => k a | Throw e => Throw e end.

Definition split_first_opt (v : value) : outcome value :=
  match v with
  | VUndefined | VNull => Ret VUndefined
  | VStr s => Ret (VStr (first_entry s))
  | _ => Throw "TypeError"
  end.

Definition getClientIP_any (req : value) : outcome value :=
  obind (get req "headers") (fun headers =>
  obind (get headers "x-forwarded-for") (fun xff =>
  obind (split_first_opt xff) (fun a =>
  if truthy a then Ret a else
  obind (get req "connection") (fun conn =>
  obind (get conn "remoteAddress") (fun b =>
  if truthy b then Ret b else
  obind (get req "socket") (fun sock =>
  obind (get sock "remoteAddress") (fun c =>
  Ret (or_else c (VStr "0.0.0.0"))))))))).

Definition opt_field (k : string) (o : option string) : list (string * value) :=
  match o with Some s => [(k, VStr s)] | None => [] end.

(** The request object a handler receives, as a value. *)
Definition Request_value (req : Request) : value :=
  VObj [ ("user", req_user req);
         ("params", VObj (map (fun kv => (kv.1, VStr kv.2)) (map_to_list (params req))));
         ("headers", VObj (opt_field "x-forwarded-for" (header_x_forwarded_for req)));
         ("connection", VObj (opt_field "remoteAddress" (connection_remoteAddress req)));
         ("socket", VObj (opt_field "remoteAddress" (socket_remoteAddress req))) ].

(** ** Vocabulary (auditLogger.ts) *)

Module AuditActions.
Definition STATION_CREATED : string := "STATION_CREATED".
Definition STATION_UPDATED : string := "STATION_UPDATED".
Definition STATION_DELETED : string := "STATION_DELETED".
Definition REMINDER_CREATED : string := "REMINDER_CREATED".
Definition REMINDER_UPDATED : string := "REMINDER_UPDATED".
Definition REMINDER_DELETED : string := "REMINDER_DELETED".
Definition REMINDER_RESOLVED : string := "REMINDER_RESOLVED".
Definition PASSWORD_CHANGED : string := "PASSWORD_CHANGED".
End AuditActions.

Module TargetTypes.
Definition USER : string := "User".
Definition STATION : string := "Station".
Definition BACKUP_REMINDER : string := "BackupReminder".
End TargetTypes.

(** ** [logAuditEvent] (auditLogger.ts)

    Declared as [(req: Request, action, targetType, targetId)]; the argument
    passed as [req] is whatever the call site evaluates. *)
Definition logAuditEvent (req : value) (action targetType : string) (targetId : value)
  : M unit :=
  try_catch
    (user <- lift (get req "user") ;;
     if truthy user && truthy (get_opt user "userId") then
       ipAddress <- lift (getClientIP_any req) ;;
       createAuditLog (get_opt user "userId") action targetType targetId ipAddress
     else ret tt)
    (fun _ => console_error "Error logging audit event:").

(** ** Interception adapter: [auditLog] (auditLogger.ts) *)

Section Interception.

(** [JSON.parse]; [None] is a thrown SyntaxError. *)
Variable JSON_parse : string -> option value.

(** [JSON.stringify], as [res.json] applies it; [None] is [undefined], its
    result for a value that has no JSON text. *)
Variable JSON_stringify : value -> option string.

Definition unknown : value := VStr "unknown".

Definition nested_id (data : value) (k : string) : value :=
  get_opt (get_opt data k) "id".

(** [parsedBody.data && parsedBody.data.k && parsedBody.data.k.id] as a test. *)
Definition has_nested_id (data : value) (k : string) : bool :=
  truthy data && truthy (get_opt data k) && truthy (nested_id data k).

(** The [if / else if] chain over the parsed payload.  [None]: no branch
    assigned [targetId]. *)
Definition payload_walk (parsedBody : value) : outcome (option value) :=
  obind (get parsedBody "data") (fun data =>
  Ret (if truthy data && truthy (get_opt data "id") then Some (get_opt data "id")
       else if has_nested_id data "user" then Some (nested_id data "user")
       else if has_nested_id data "station" then Some (nested_id data "station")
       else if has_nested_id data "profile" then Some (nested_id data "profile")
       else if has_nested_id data "backup" then Some (nested_id data "backup")
       else if has_nested_id data "reminder" then Some (nested_id data "reminder")
       else if has_nested_id data "role" then Some (nested_id data "role")
       else None)).

(** [req.params.k] as a condition and as a value. *)
Definition param (req : Request) (k : string) : option string :=
  match params req !! k with
  | Some s => if nonempty s then Some s else None
  | None => None
  end.

(** [body && typeof body === 'string']. *)
Definition string_body (b : body) : option string :=
  match b with
  | BodyValue (VStr s) => if nonempty s then Some s else None
  | _ => None
  end.

Definition Resolver := Request -> Res -> outcome value.

(** The assignments to [targetId] inside the outer [try] (lines 68-101): the
    value [targetId] holds when [getClientIP] is reached, or the exception
    that leaves the [try] block. *)
Definition resolve_targetId (getTargetId : option Resolver)
    (req : Request) (res : Res) (b : body) : outcome value :=
  match getTargetId with
  | Some f => f req res
  | None =>
      match param req "id" with
      | Some s => Ret (VStr s)
      | None =>
      match param req "stationId" with
      | Some s => Ret (VStr s)
      | None =>
      match param req "userId" with
      | Some s => Ret (VStr s)
      | None =>
      match string_body b with
      | Some s =>
          (* try { ... } catch (parseError) { } *)
          match JSON_parse s with
          | None => Ret unknown
          | Some parsedBody =>
              match payload_walk parsedBody with
              | Ret (Some v) => Ret v
              | Ret None => Ret unknown
              | Throw _ => Ret unknown
              end
          end
      | None => Ret unknown
      end end end end
  end.

Definition success_status (res : Res) : bool :=
  ((200 <=? statusCode res) && (statusCode res <? 300))%Z.

(** One run of the replacement [res.send] installed by the middleware.  Its
    result is the argument it gives to the original [send]; what the original
    does with it is in [res_send] below. *)
Definition send (action targetType : string) (getTargetId : option Resolver)
    (req : Request) (res : Res) (b : body) : M body :=
  (if success_status res then
     let user := req_user req in
     if truthy user && truthy (get_opt user "userId") then
       try_catch
         (targetId <- lift (resolve_targetId getTargetId req res b) ;;
          let ipAddress := getClientIP req in
          createAuditLog_detached (get_opt user "userId") action targetType
            targetId (VStr ipAddress))
         (fun _ => console_error "Error in audit logging middleware:")
     else ret tt
   else ret tt) ;;;
  ret b.

(** The original [send] is that of Express 4 (package.json: [^4.21.2]).
    Given a boolean, an array or an object that is no Buffer, it returns
    [this.json(body)]; anything else it writes out itself. *)
Definition handed_to_json (b : body) : option value :=
  match b with
  | BodyValue (VBool x) => Some (VBool x)
  | BodyValue (VArr items) => Some (VArr items)
  | BodyValue (VObj fields) => Some (VObj fields)
  | _ => None
  end.

(** The argument [res.json(v)] gives to [this.send]. *)
Definition json_text (v : value) : body :=
  BodyValue (match JSON_stringify v with
             | Some text => VStr text
             | None => VUndefined
             end).

(** [res.json(v)] of Express 4 once the middleware has run: it serialises
    [v] and returns [this.send(text)], and [this.send] is the replacement.
    This is how the handlers of this program answer. *)
Definition res_json (action targetType : string) (getTargetId : option Resolver)
    (req : Request) (res : Res) (v : value) : M body :=
  send action targetType getTargetId req res (json_text v).

(** [res.send(b)] as a handler calls it once the middleware has run: the
    replacement, then the original [send] on the same argument.  The result is
    the argument of the last call of the original [send]. *)
Definition res_send (action targetType : string) (getTargetId : option Resolver)
    (req : Request) (res : Res) (b : body) : M body :=
  b' <- send action targetType getTargetId req res b ;;
  match handed_to_json b' with
  | Some v => res_json action targetType getTargetId req res v
  | None => ret b'
  end.

(** [auditLog(action, targetType, getTargetId?)]: the middleware it returns
    replaces [res.send] by the function above and calls [next()]; what it
    contributes to a request is that [send]. *)
Definition auditLog (action targetType : string) (getTargetId : option Resolver)
    (req : Request) (res : Res) : body -> M body :=
  send action targetType getTargetId req res.

(** The predefined middlewares used by routes/backupReminders.ts. *)
Definition auditReminderCreated : Request -> Res -> body -> M body :=
  auditLog AuditActions.REMINDER_CREATED TargetTypes.BACKUP_REMINDER None.

Definition auditReminderUpdated : Request -> Res -> body -> M body :=
  auditLog AuditActions.REMINDER_UPDATED TargetTypes.BACKUP_REMINDER None.

Definition auditReminderDeleted : Request -> Res -> body -> M body :=
  auditLog AuditActions.REMINDER_DELETED TargetTypes.BACKUP_REMINDER None.

Definition auditReminderResolved : Request -> Res -> body -> M body :=
  auditLog AuditActions.REMINDER_RESOLVED TargetTypes.BACKUP_REMINDER None.

End Interception.

(** ** Query engine (auditLogController.ts) *)

(** *** Validation: [getAuditLogsSchema] *)

(** One entry of [error.details]: the offending key and the rule it broke. *)
Record FieldError := { fe_field : string; fe_rule : string }.

(** [value] of a successful [getAuditLogsSchema.validate(req.query)]. *)
Record ListParams := {
  page : Z;
  limit : Z;
  f_userId : option string;
  f_action : option string;
  f_targetType : option string;
  f_targetId : option string;
  f_startDate : option Z;
  f_endDate : option Z;
  f_search : option string
}.

(** [Number.MAX_SAFE_INTEGER]. *)
Definition max_safe_integer : Z := 9007199254740991.

(** [Joi.number().integer().min(lo).max(hi).default(dflt)] on an integer
    numeral.  A number outside the safe integers is refused
    ([number.unsafe]) before the bounds are looked at. *)
Definition check_number (field : string) (o : option Z) (dflt lo : Z) (hi : option Z)
  : FieldError + Z :=
  match o with
  | None => inr dflt
  | Some z =>
      if (max_safe_integer <? Z.abs z)%Z
      then inl {| fe_field := field; fe_rule := "number.unsafe" |}
      else if (z <? lo)%Z then inl {| fe_field := field; fe_rule := "number.min" |}
      else match hi with
           | Some h => if (h <? z)%Z then inl {| fe_field := field; fe_rule := "number.max" |}
                       else inr z
           | None => inr z
           end
  end.

(** [Joi.string().uuid()]. *)
Definition check_guid (field : string) (o : option GuidText) : FieldError + option string :=
  match o with
  | None => inr None
  | Some (Guid s) => inr (Some s)
  | Some (NotGuid s) =>
      inl {| fe_field := field;
             fe_rule := if nonempty s then "string.guid" else "string.empty" |}
  end.

(** [Joi.string()]: the empty string is refused unless [.allow('')]. *)
Definition check_string (field : string) (allow_empty : bool) (o : option string)
  : FieldError + option string :=
  match o with
  | None => inr None
  | Some s => if nonempty s || allow_empty then inr (Some s)
              else inl {| fe_field := field; fe_rule := "string.empty" |}
  end.

(** [Joi.date().iso()]. *)
Definition check_date (field : string) (o : option DateText) : FieldError + option Z :=
  match o with
  | None => inr None
  | Some (ISODate ms) => inr (Some ms)
  | Some (NotISODate _) => inl {| fe_field := field; fe_rule := "date.format" |}
  end.

(** The keys of the query string that [getAuditLogsSchema] does not declare,
    in the order of the query string. *)
Definition unknown_keys (q : Query) : list string :=
  match q_days q with
  | Some _ =>
      take (q_days_rank q) (q_other q) ++ "days" :: drop (q_days_rank q) (q_other q)
  | None => q_other q
  end.

Definition and_then {E A B} (r : E + A) (k : A -> E + B) : E + B :=
  match r with inl e => inl e | inr a => k a end.

(** The schema keys are checked in declaration order and the first violation
    is reported; there is no rule relating two keys. *)
Definition getAuditLogsSchema_validate (q : Query) : FieldError + ListParams :=
  and_then (check_number "page" (q_page q) 1 1 None) (fun page =>
  and_then (check_number "limit" (q_limit q) 10 1 (Some 100%Z)) (fun limit =>
  and_then (check_guid "userId" (q_userId q)) (fun userId =>
  and_then (check_string "action" false (q_action q)) (fun action =>
  and_then (check_string "targetType" false (q_targetType q)) (fun targetType =>
  and_then (check_guid "targetId" (q_targetId q)) (fun targetId =>
  and_then (check_date "startDate" (q_startDate q)) (fun startDate =>
  and_then (check_date "endDate" (q_endDate q)) (fun endDate =>
  and_then (check_string "search" true (q_search q)) (fun search =>
  match unknown_keys q with
  | k :: _ => inl {| fe_field := k; fe_rule := "object.unknown" |}
  | [] =>
      inr {| page := page; limit := limit; f_userId := userId; f_action := action;
             f_targetType := targetType; f_targetId := targetId;
             f_startDate := startDate; f_endDate := endDate; f_search := search |}
  end))))))))).

(** *** Where clauses and their evaluation by the store *)

Inductive Column := ColAction | ColTargetType | ColFirstName | ColLastName | ColUsername.

(** The object built in [whereClause]: equality tests, the [Op.iLike]
    pattern on [action], the bounds on [timestamp], and the [Op.or] list. *)
Record WhereClause := {
  w_userId : option string;
  w_action_iLike : option string;
  w_targetType : option string;
  w_targetId : option string;
  w_timestamp_gte : option Z;
  w_timestamp_lte : option Z;
  w_or : option (list (Column * string))
}.

(** The pattern [`%${s}%`]. *)
Definition contains_pattern (s : string) : string := "%" ++ s ++ "%".

(** [Op.iLike] is written into the statement as the keyword [ILIKE].  The
    dialect configured for every environment is [mysql] (config/config.ts,
    config/database.js), which has no such operator: the server refuses a
    statement that contains it.  The [Op.or] list holds [Op.iLike]
    comparisons only. *)
Definition uses_iLike (wc : WhereClause) : bool :=
  match w_action_iLike wc, w_or wc with
  | None, None => false
  | _, _ => true
  end.

Definition opt_test {A} (o : option A) (test : A -> bool) : bool :=
  match o with Some a => test a | None => true end.

(** The conditions of a statement the server accepts. *)
Definition eval_where (us : list User) (wc : WhereClause) (row : AuditLog) : bool :=
  opt_test (w_userId wc) (String.eqb (userId row)) &&
  opt_test (w_targetType wc) (String.eqb (targetType row)) &&
  opt_test (w_targetId wc) (String.eqb (targetId row)) &&
  opt_test (w_timestamp_gte wc) (fun lo => (lo <=? timestamp row)%Z) &&
  opt_test (w_timestamp_lte wc) (fun hi => (timestamp row <=? hi)%Z).

(** Stable insertion sort; [before x y] says [x] may precede [y]. *)
Fixpoint insert_by {A} (before : A -> A -> bool) (x : A) (l : list A) : list A :=
  match l with
  | [] => [x]
  | y :: l' => if before x y then x :: y :: l' else y :: insert_by before x l'
  end.

Fixpoint sort_by {A} (before : A -> A -> bool) (l : list A) : list A :=
  match l with
  | [] => []
  | x :: l' => insert_by before x (sort_by before l')
  end.

(** [order: [['timestamp', 'DESC']]].  The statement does not fix the order
    of rows with equal timestamps; here it is that of the table. *)
Definition newest_first (l : list AuditLog) : list AuditLog :=
  sort_by (fun x y => (timestamp y <=? timestamp x)%Z) l.

(** A row with its [include]d user (the user's role is not modelled). *)
Definition JoinedLog : Type := AuditLog * option UserInfo.

Definition join_user (us : list User) (row : AuditLog) : JoinedLog :=
  (row, user_info <$> find_user (userId row) us).

(** [AuditLog.findAndCountAll({where, include, limit, offset, order})].
    [ILIKE], a negative [LIMIT] and a negative [OFFSET] are SQL errors. *)
Definition AuditLog_findAndCountAll (wc : WhereClause) (limit offset : Z)
  : M (list JoinedLog * Z) :=
  d <- require_connection ;;
  if uses_iLike wc || ((limit <? 0) || (offset <? 0))%Z
  then throw "SequelizeDatabaseError" else
  let matching := List.filter (eval_where (Users d) wc) (AuditLogs d) in
  ret (join_user (Users d) <$>
         take (Z.to_nat limit) (drop (Z.to_nat offset) (newest_first matching)),
       Z.of_nat (length matching)).

(** [AuditLog.findByPk(id, {include})]. *)
Definition AuditLog_findByPk (pk : string) : M (option JoinedLog) :=
  d <- require_connection ;;
  ret (join_user (Users d) <$> List.find (fun r => String.eqb (id r) pk) (AuditLogs d)).

(** [AuditLog.count({where})]. *)
Definition AuditLog_count (wc : WhereClause) : M Z :=
  d <- require_connection ;;
  if uses_iLike wc then throw "SequelizeDatabaseError" else
  ret (Z.of_nat (length (List.filter (eval_where (Users d) wc) (AuditLogs d)))).

(** [AuditLog.findAll({where, attributes: [key, COUNT(id)], group: [key],
    order, limit})].  The order among groups that compare equal is the
    store's; here it is the order of [remove_dups]. *)
Definition AuditLog_findAll_grouped {K} `{EqDecision K} (wc : WhereClause)
    (key : list User -> AuditLog -> K) (before : K * Z -> K * Z -> bool)
    (limit : option nat) : M (list (K * Z)) :=
  d <- require_connection ;;
  if uses_iLike wc then throw "SequelizeDatabaseError" else
  let rows := List.filter (eval_where (Users d) wc) (AuditLogs d) in
  let keys := remove_dups (key (Users d) <$> rows) in
  let groups :=
    (fun k => (k, Z.of_nat (length (List.filter
                                      (fun r => bool_decide (key (Users d) r = k)) rows))))
      <$> keys in
  let ordered := sort_by before groups in
  ret (match limit with Some n => take n ordered | None => ordered end).

(** *** Responses *)

(** A JavaScript number that may not be finite ([Math.ceil(total / limit)]). *)
Inductive jsnum := NaN | Infinity | Num (z : Z).

(** [Math.ceil(total / limit)] for integers [total >= 0] and [limit]. *)
Definition ceil_div (total limit : Z) : jsnum :=
  if (limit =? 0)%Z then (if (total =? 0)%Z then NaN else Infinity)
  else Num (- ((- total) / limit))%Z.

(** [page < totalPages]. *)
Definition js_lt (p : Z) (n : jsnum) : bool :=
  match n with
  | NaN => false
  | Infinity => true
  | Num z => (p <? z)%Z
  end.

Record Pagination := {
  currentPage : Z;
  totalPages : jsnum;
  totalItems : Z;
  itemsPerPage : Z;
  hasNextPage : bool;
  hasPreviousPage : bool
}.

Record Statistics := {
  totalLogs : Z;
  recentLogs : Z;
  period_days : Z;
  actionStats : list (string * Z);
  targetTypeStats : list (string * Z);
  userActivityStats : list (string * option UserInfo * Z);
  dailyStats : list (Z * Z)
}.

Inductive ResponseBody :=
| ValidationErrorBody (errors : list FieldError)
| MessageBody (success : bool) (message : string)
| InternalErrorBody
| AuditLogsBody (auditLogs : list JoinedLog) (pagination : Pagination)
| UserAuditLogsBody (auditLogs : list JoinedLog) (userInfo : UserInfo)
    (pagination : Pagination)
| AuditLogBody (auditLog : JoinedLog)
| StatisticsBody (stats : Statistics).

(** [res.status(status).json(payload)]. *)
Record Response := { status : Z; payload : ResponseBody }.

Definition internal_error (label : string) : M Response :=
  console_error label ;;;
  ret {| status := 500; payload := InternalErrorBody |}.

Definition make_pagination (page limit total : Z) : Pagination :=
  let totalPages := ceil_div total limit in
  {| currentPage := page;
     totalPages := totalPages;
     totalItems := total;
     itemsPerPage := limit;
     hasNextPage := js_lt page totalPages;
     hasPreviousPage := (1 <? page)%Z |}.

(** *** [getAuditLogs] *)

Definition truthy_string (o : option string) : option string :=
  match o with Some s => if nonempty s then Some s else None | None => None end.

Definition search_columns : list Column :=
  [ColAction; ColTargetType; ColFirstName; ColLastName; ColUsername].

Definition list_where (v : ListParams) : WhereClause :=
  {| w_userId := truthy_string (f_userId v);
     w_action_iLike := contains_pattern <$> truthy_string (f_action v);
     w_targetType := truthy_string (f_targetType v);
     w_targetId := truthy_string (f_targetId v);
     w_timestamp_gte := f_startDate v;
     w_timestamp_lte := f_endDate v;
     w_or := (fun s => (fun c => (c, contains_pattern s)) <$> search_columns)
               <$> truthy_string (f_search v) |}.

Definition getAuditLogs (req : Request) : M Response :=
  try_catch
    (match getAuditLogsSchema_validate (query req) with
     | inl error =>
         ret {| status := 400; payload := ValidationErrorBody [error] |}
     | inr v =>
         let offset := ((page v - 1) * limit v)%Z in
         found <- AuditLog_findAndCountAll (list_where v) (limit v) offset ;;
         ret {| status := 200;
                payload := AuditLogsBody found.1
                             (make_pagination (page v) (limit v) found.2) |}
     end)
    (fun _ => internal_error "Get audit logs error:").

(** *** [getAuditLogById] *)

Definition getAuditLogById (req : Request) : M Response :=
  try_catch
    (match param req "id" with
     | None =>
         ret {| status := 400; payload := MessageBody false "Audit log ID is required" |}
     | Some pk =>
         found <- AuditLog_findByPk pk ;;
         match found with
         | None =>
             ret {| status := 404; payload := MessageBody false "Audit log not found" |}
         | Some auditLog =>
             ret {| status := 200; payload := AuditLogBody auditLog |}
         end
     end)
    (fun _ => internal_error "Get audit log by ID error:").

(** *** [getAuditLogsByUser]

    Reads [page = 1, limit = 10, action, targetType] from the query string,
    converts with [Number], and validates nothing. *)

Definition by_user_where (uid : string) (q : Query) : WhereClause :=
  {| w_userId := Some uid;
     w_action_iLike := contains_pattern <$> truthy_string (q_action q);
     w_targetType := truthy_string (q_targetType q);
     w_targetId := None; w_timestamp_gte := None; w_timestamp_lte := None;
     w_or := None |}.

Definition getAuditLogsByUser (req : Request) : M Response :=
  try_catch
    (let page := default 1%Z (q_page (query req)) in
     let limit := default 10%Z (q_limit (query req)) in
     match param req "userId" with
     | None =>
         ret {| status := 400; payload := MessageBody false "User ID is required" |}
     | Some uid =>
         found_user <- User_findByPk uid ;;
         match found_user with
         | None =>
             ret {| status := 404; payload := MessageBody false "User not found" |}
         | Some user =>
             let offset := ((page - 1) * limit)%Z in
             found <- AuditLog_findAndCountAll (by_user_where uid (query req)) limit offset ;;
             ret {| status := 200;
                    payload := UserAuditLogsBody found.1
                                 {| ui_id := user_id user; ui_firstName := firstName user;
                                    ui_lastName := lastName user;
                                    ui_username := username user |}
                                 (make_pagination page limit found.2) |}
         end
     end)
    (fun _ => internal_error "Get audit logs by user error:").

(** *** [getAuditLogStatistics] *)

Definition ms_per_day : Z := 86400000.

(** [DATE(timestamp)] as a day number. *)
Definition date_of (ts : Z) : Z := (ts / ms_per_day)%Z.

Definition stats_where (q : Query) : WhereClause :=
  {| w_userId := truthy_string (guid_raw <$> q_userId q);
     w_action_iLike := None;
     w_targetType := truthy_string (q_targetType q);
     w_targetId := None; w_timestamp_gte := None; w_timestamp_lte := None;
     w_or := None |}.

Definition since (wc : WhereClause) (t : Z) : WhereClause :=
  {| w_userId := w_userId wc; w_action_iLike := w_action_iLike wc;
     w_targetType := w_targetType wc; w_targetId := w_targetId wc;
     w_timestamp_gte := Some t; w_timestamp_lte := w_timestamp_lte wc;
     w_or := w_or wc |}.

Definition by_count_desc {K} (x y : K * Z) : bool := (y.2 <=? x.2)%Z.

Definition getAuditLogStatistics (req : Request) : M Response :=
  try_catch
    (let days := default 30%Z (q_days (query req)) in
     let whereClause := stats_where (query req) in
     now <- new_Date ;;
     let daysAgo := (now - days * ms_per_day)%Z in
     let recentWhereClause := since whereClause daysAgo in
     totalLogs <- AuditLog_count whereClause ;;
     recentLogs <- AuditLog_count recentWhereClause ;;
     actionStats <- AuditLog_findAll_grouped recentWhereClause
                      (fun _ r => action r) by_count_desc (Some 10%nat) ;;
     targetTypeStats <- AuditLog_findAll_grouped recentWhereClause
                          (fun _ r => targetType r) by_count_desc (Some 10%nat) ;;
     userActivityStats <- AuditLog_findAll_grouped recentWhereClause
                            (fun us r => (userId r, user_info <$> find_user (userId r) us))
                            by_count_desc (Some 10%nat) ;;
     now7 <- new_Date ;;
     let sevenDaysAgo := (now7 - 7 * ms_per_day)%Z in
     dailyStats <- AuditLog_findAll_grouped (since whereClause sevenDaysAgo)
                     (fun _ r => date_of (timestamp r))
                     (fun x y => (y.1 <=? x.1)%Z) None ;;
     ret {| status := 200;
            payload := StatisticsBody
                         {| totalLogs := totalLogs; recentLogs := recentLogs;
                            period_days := days; actionStats := actionStats;
                            targetTypeStats := targetTypeStats;
                            userActivityStats := userActivityStats;
                            dailyStats := dailyStats |} |})
    (fun _ => internal_error "Get audit log statistics error:").

(** ** [createStation] (stationController.ts) *)

Definition JoinedStation : Type := Station * option UserInfo.

(** [Joi.string().min(lo).max(hi).required()] on one key of the body; the
    bounds are on the [length] of the string. *)
Definition check_text (field : string) (lo : nat) (hi : option nat)
    (fields : list (string * value)) : FieldError + string :=
  match assoc field fields with
  | VUndefined => inl {| fe_field := field; fe_rule := "any.required" |}
  | VStr s =>
      if negb (nonempty s) then inl {| fe_field := field; fe_rule := "string.empty" |}
      else if (js_length s <? lo)%nat
           then inl {| fe_field := field; fe_rule := "string.min" |}
      else match hi with
           | Some h => if (h <? js_length s)%nat
                       then inl {| fe_field := field; fe_rule := "string.max" |}
                       else inr s
           | None => inr s
           end
  | _ => inl {| fe_field := field; fe_rule := "string.base" |}
  end.

Definition createStationSchema_keys : list string :=
  ["stationName"; "serialNumber"; "location"].

Definition createStationSchema_validate (fields : list (string * value))
  : FieldError + (string * string * string) :=
  and_then (check_text "stationName" 2 (Some 100%nat) fields) (fun stationName =>
  and_then (check_text "serialNumber" 1 (Some 50%nat) fields) (fun serialNumber =>
  and_then (check_text "location" 2 (Some 200%nat) fields) (fun location =>
  match List.filter (fun kv => negb (bool_decide (kv.1 ∈ createStationSchema_keys))) fields with
  | kv :: _ => inl {| fe_field := kv.1; fe_rule := "object.unknown" |}
  | [] => inr (stationName, serialNumber, location)
  end))).

(** [Station.findOne({ where: { serialNumber } })]. *)
Definition Station_findOne_serialNumber (sn : string) : M (option Station) :=
  d <- require_connection ;;
  ret (List.find (fun s => String.eqb (serialNumber s) sn) (Stations d)).

(** [Station.create({stationName, serialNumber, location, createdBy})]:
    [createdBy] is a non-null [UUID] referencing [Users]
    ([fk_stations_created_by]); [serialNumber] is unique. *)
Definition Station_create (name sn loc : string) (creator : value) : M Station :=
  d <- require_connection ;;
  match as_string creator with
  | None => throw "SequelizeValidationError"
  | Some uid =>
      match find_user uid (Users d) with
      | None => throw "SequelizeForeignKeyConstraintError"
      | Some _ =>
          new_id <- draw_uuid ;;
          if existsb (fun s => String.eqb (station_id s) new_id
                               || String.eqb (serialNumber s) sn) (Stations d)
          then throw "SequelizeUniqueConstraintError" else
          let row := {| station_id := new_id; stationName := name; serialNumber := sn;
                        location := loc; createdBy := uid |} in
          write_db {| AuditLogs := AuditLogs d; Users := Users d;
                      Stations := Stations d ++ [row]; connected := connected d;
                      AuditLogs_writable := AuditLogs_writable d |} ;;;
          ret row
      end
  end.

(** [Station.findByPk(id, { include: creator })]. *)
Definition Station_findByPk (pk : string) : M (option JoinedStation) :=
  d <- require_connection ;;
  ret ((fun s => (s, user_info <$> find_user (createdBy s) (Users d)))
         <$> List.find (fun s => String.eqb (station_id s) pk) (Stations d)).

Inductive StationResponseBody :=
| StationValidationError (errors : list FieldError)
| StationMessage (success : bool) (message : string)
| StationInternalError
| StationCreated (station : option JoinedStation).

Record StationResponse := { st_status : Z; st_payload : StationResponseBody }.

(** The audit step is written
    [await logAuditEvent((req as any).user?.userId, AuditActions.STATION_CREATED,
    TargetTypes.STATION, station.id)]: the first argument is the actor's id,
    where [logAuditEvent] declares the request. *)
Definition createStation (req : Request) : M StationResponse :=
  try_catch
    (match createStationSchema_validate (req_body req) with
     | inl error =>
         ret {| st_status := 400; st_payload := StationValidationError [error] |}
     | inr (name, sn, loc) =>
         let createdBy := get_opt (req_user req) "userId" in
         existingStation <- Station_findOne_serialNumber sn ;;
         match existingStation with
         | Some _ =>
             ret {| st_status := 400;
                    st_payload := StationMessage false "Serial number already exists" |}
         | None =>
             station <- Station_create name sn loc createdBy ;;
             createdStation <- Station_findByPk (station_id station) ;;
             logAuditEvent (get_opt (req_user req) "userId")
               AuditActions.STATION_CREATED TargetTypes.STATION
               (VStr (station_id station)) ;;;
             ret {| st_status := 201; st_payload := StationCreated createdStation |}
         end
     end)
    (fun _ => console_error "Create station error:" ;;;
              ret {| st_status := 500; st_payload := StationInternalError |}).

(** ** [changePassword] (authController.ts) *)

Section Auth.

(** [bcrypt.compare] and [bcrypt.hash(_, 12)]. *)
Variable bcrypt_compare : string -> string -> bool.
Variable bcrypt_hash : string -> string.

Definition changePasswordSchema_validate (fields : list (string * value))
  : FieldError + (string * string) :=
  and_then (check_text "currentPassword" 0 None fields) (fun currentPassword =>
  and_then (check_text "newPassword" 6 None fields) (fun newPassword =>
  match List.filter (fun kv => negb (bool_decide (kv.1 ∈ ["currentPassword"; "newPassword"])))
          fields with
  | kv :: _ => inl {| fe_field := kv.1; fe_rule := "object.unknown" |}
  | [] => inr (currentPassword, newPassword)
  end)).

(** [user.update({ password })]. *)
Definition User_update_password (uid hashed : string) : M unit :=
  d <- require_connection ;;
  write_db {| AuditLogs := AuditLogs d;
              Users := (fun u => if String.eqb (user_id u) uid
                                 then {| user_id := user_id u; firstName := firstName u;
                                         lastName := lastName u; username := username u;
                                         password := hashed;
                                         user_status := user_status u |}
                                 else u) <$> Users d;
              Stations := Stations d; connected := connected d;
              AuditLogs_writable := AuditLogs_writable d |}.

Definition changePassword (req : Request) : M Response :=
  try_catch
    (let userId := get_opt (req_user req) "userId" in
     if negb (truthy userId) then
       ret {| status := 401; payload := MessageBody false "Unauthorized" |}
     else
     match changePasswordSchema_validate (req_body req) with
     | inl error => ret {| status := 400; payload := ValidationErrorBody [error] |}
     | inr (currentPassword, newPassword) =>
         found <- match as_string userId with
                  | Some uid => User_findByPk uid
                  | None => require_connection ;;; ret None
                  end ;;
         match found with
         | None => ret {| status := 404; payload := MessageBody false "User not found" |}
         | Some user =>
             if negb (bcrypt_compare currentPassword (password user)) then
               ret {| status := 400;
                      payload := MessageBody false "Current password is incorrect" |}
             else
               User_update_password (user_id user) (bcrypt_hash newPassword) ;;;
               let ipAddress := getClientIP req in
               createAuditLog userId AuditActions.PASSWORD_CHANGED TargetTypes.USER
                 userId (VStr ipAddress) ;;;
               ret {| status := 200;
                      payload := MessageBody true "Password changed successfully" |}
         end
     end)
    (fun _ => internal_error "Change password error:").

End Auth.

(** ** [authorizeRole] (middleware/auth.ts) *)

(** What a middleware does with a request: answer it, or pass it on with
    [next()]. *)
Inductive Verdict := Respond (r : Response) | Next.

(** [allowedRoles.includes(v)] for an array of strings. *)
Definition includes (allowedRoles : list string) (v : value) : bool :=
  match v with
  | VStr s => existsb (String.eqb s) allowedRoles
  | _ => false
  end.

Definition authorizeRole (allowedRoles : list string) (req : Request) : outcome Verdict :=
  let user := req_user req in
  if negb (truthy user) then
    Ret (Respond {| status := 401; payload := MessageBody false "Unauthorized" |})
  else
    match get user "role" with
    | Throw e => Throw e
    | Ret role =>
        if negb (includes allowedRoles (get_opt role "name")) then
          Ret (Respond {| status := 403;
                          payload := MessageBody false "Insufficient permissions" |})
        else Ret Next
    end.

(** [router.use(mw)] in front of a handler. *)
Definition behind (mw : Request -> outcome Verdict) (h : Request -> M Response)
    (req : Request) : M Response :=
  match mw req with
  | Ret Next => h req
  | Ret (Respond r) => ret r
  | Throw e => throw e
  end.

(** ** Routers *)

Inductive Method := GET | POST | PUT | PATCH | DELETE.

Inductive Handler :=
| H_getAuditLogs | H_getAuditLogStatistics | H_getAuditLogsByUser | H_getAuditLogById
| H_createStation | H_getStations | H_getStationStats | H_getStationById
| H_updateStation | H_deleteStation
| H_createReminder | H_getReminders | H_getReminderStatistics
| H_getRemindersByStationId | H_getReminderById | H_updateReminder
| H_markReminderAsResolved | H_deleteReminder.

(** A route: method, path, the [auditLog(action, targetType)] middleware in
    front of the handler if there is one, and the handler. *)
Record Route := {
  method : Method;
  path : string;
  audit_middleware : option (string * string);
  handler : Handler
}.

Definition route (m : Method) (p : string) (h : Handler) : Route :=
  {| method := m; path := p; audit_middleware := None; handler := h |}.

Definition audited (m : Method) (p : string) (a t : string) (h : Handler) : Route :=
  {| method := m; path := p; audit_middleware := Some (a, t); handler := h |}.

(** routes/auditLogs.ts *)
Definition auditLogs_router : list Route :=
  [ route GET "/" H_getAuditLogs;
    route GET "/statistics" H_getAuditLogStatistics;
    route GET "/user/:userId" H_getAuditLogsByUser;
    route GET "/:id" H_getAuditLogById ].

(** routes/stations.ts *)
Definition stations_router : list Route :=
  [ route POST "/" H_createStation;
    route GET "/" H_getStations;
    route GET "/:id/stats" H_getStationStats;
    route GET "/:id" H_getStationById;
    route PUT "/:id" H_updateStation;
    route DELETE "/:id" H_deleteStation ].

(** routes/backupReminders.ts *)
Definition backupReminders_router : list Route :=
  [ audited POST "/" AuditActions.REMINDER_CREATED TargetTypes.BACKUP_REMINDER
      H_createReminder;
    route GET "/" H_getReminders;
    route GET "/statistics" H_getReminderStatistics;
    route GET "/station/:stationId" H_getRemindersByStationId;
    route GET "/:id" H_getReminderById;
    audited PATCH "/:id" AuditActions.REMINDER_UPDATED TargetTypes.BACKUP_REMINDER
      H_updateReminder;
    audited PATCH "/:id/resolve" AuditActions.REMINDER_RESOLVED
      TargetTypes.BACKUP_REMINDER H_markReminderAsResolved;
    audited DELETE "/:id" AuditActions.REMINDER_DELETED TargetTypes.BACKUP_REMINDER
      H_deleteReminder ].

(** The controllers that call [logAuditEvent] themselves, with the pair they
    name (stationController.ts lines 82, 345, 411; backupReminderController.ts
    has no such call). *)
Definition explicit_audit (h : Handler) : option (string * string) :=
  match h with
  | H_createStation => Some (AuditActions.STATION_CREATED, TargetTypes.STATION)
  | H_updateStation => Some (AuditActions.STATION_UPDATED, TargetTypes.STATION)
  | H_deleteStation => Some (AuditActions.STATION_DELETED, TargetTypes.STATION)
  | _ => None
  end.

Definition mutating (r : Route) : bool :=
  match method r with GET => false | _ => true end.

(** The route is instrumented through exactly one of the two paths. *)
Definition instrumented_once (r : Route) : bool :=
  match audit_middleware r, explicit_audit (handler r) with
  | Some _, None | None, Some _ => true
  | _, _ => false
  end.

(** The query-engine handlers behind the audit-log routes. *)
Definition query_handler (h : Handler) : option (Request -> M Response) :=
  match h with
  | H_getAuditLogs => Some getAuditLogs
  | H_getAuditLogStatistics => Some getAuditLogStatistics
  | H_getAuditLogsByUser => Some getAuditLogsByUser
  | H_getAuditLogById => Some getAuditLogById
  | _ => None
  end.

(** routes/auditLogs.ts: [router.use(authorizeRole(['admin']))] in front of
    the four handlers, for a request on which [authenticateToken] has set
    [req.user]. *)
Definition auditLogs_endpoint (h : Handler) : option (Request -> M Response) :=
  behind (authorizeRole ["admin"]) <$> query_handler h.

(** * Properties *)

(** ** Vocabulary of the statements *)

(** The world with the Event Store accepting inserts or not. *)
Definition set_writable (flag : bool) (w : World) : World :=
  with_db {| AuditLogs := AuditLogs (db w); Users := Users (db w);
             Stations := Stations (db w); connected := connected (db w);
             AuditLogs_writable := flag |} w.

(** The adapter's test for "an authenticated actor with a user id":
    [user && user.userId]. *)
Definition has_actor (req : Request) : bool :=
  truthy (req_user req) && truthy (get_opt (req_user req) "userId").

(** The detached write the adapter starts for a resolved [targetId]. *)
Definition dispatched_write (action targetType : string) (req : Request)
    (targetId : value) (w : World) : PendingWrite :=
  {| pw_call := {| call_userId := get_opt (req_user req) "userId";
                   call_action := action; call_targetType := targetType;
                   call_targetId := targetId;
                   call_ipAddress := VStr (getClientIP req) |};
     pw_timestamp := clock w |}.

(** ** Sample data used by the examples *)

Definition alice_id : string := "2f1c7c0e-5a3b-4c1d-9e2f-000000000001".

Definition alice : User :=
  {| user_id := alice_id; firstName := "Alice"; lastName := "Mrema";
     username := "alice.mrema"; password := "hash:old-secret";
     user_status := "active" |}.

(** [req.user] as [authenticateToken] sets it. *)
Definition actor (u : User) : value :=
  VObj [ ("userId", VStr (user_id u)); ("username", VStr (username u));
         ("roleId", VStr "role-1");
         ("role", VObj [("id", VStr "role-1"); ("name", VStr "admin");
                        ("status", VStr "active")]) ].

Definition sample_uuid (n : nat) : string :=
  "7d3e9a10-0000-4000-8000-00000000000" ++ String (ascii_of_nat (48 + n)) "".

Definition sample_db : Database :=
  {| AuditLogs := []; Users := [alice]; Stations := [];
     connected := true; AuditLogs_writable := true |}.

Definition sample_world : World :=
  {| db := sample_db; console := []; clock := 1752650000000;
     uuid_source := sample_uuid; uuid_drawn := 0; pending := [] |}.

Definition empty_query : Query :=
  {| q_page := None; q_limit := None; q_userId := None; q_action := None;
     q_targetType := None; q_targetId := None; q_startDate := None;
     q_endDate := None; q_search := None; q_days := None;
     q_other := []; q_days_rank := 0 |}.

Definition sample_request (user : value) (ps : list (string * string))
    (q : Query) (b : list (string * value)) : Request :=
  {| req_user := user; params := list_to_map ps;
     header_x_forwarded_for := Some "203.0.113.7, 10.0.0.1";
     connection_remoteAddress := Some "10.0.0.1";
     socket_remoteAddress := Some "10.0.0.1";
     query := q; req_body := b |}.

Definition sample_bcrypt_compare (plain hashed : string) : bool :=
  String.eqb ("hash:" ++ plain) hashed.

Definition sample_bcrypt_hash (plain : string) : string := "hash:" ++ plain.

Definition change_password_request : Request :=
  sample_request (actor alice) [] empty_query
    [("currentPassword", VStr "old-secret"); ("newPassword", VStr "new-secret")].

(** ** The resolution order as the specification words it

    "a caller-supplied resolver's result if one is given; otherwise the path
    parameter id, then stationId, then userId; otherwise the first present
    value among data.id, data.user.id, ... in the parsed response payload;
    otherwise the sentinel".  A value is present at a location when reading
    the location yields something other than [undefined], [null], [false],
    [0] or the empty string. *)

Definition path_parameters : list string := ["id"; "stationId"; "userId"].

Definition payload_locations : list (list string) :=
  [ ["data"; "id"];
    ["data"; "user"; "id"];
    ["data"; "station"; "id"];
    ["data"; "profile"; "id"];
    ["data"; "backup"; "id"];
    ["data"; "reminder"; "id"];
    ["data"; "role"; "id"] ].

Fixpoint at_path (v : value) (location : list string) : value :=
  match location with
  | [] => v
  | k :: rest => at_path (get_opt v k) rest
  end.

Definition present (v : value) : bool := truthy v.

Definition first_path_parameter (req : Request) : option string :=
  head (omap (param req) path_parameters).

Definition first_present_in_payload (payload : value) : option value :=
  List.find present (at_path payload <$> payload_locations).

Section ResolutionOrder.

Variable JSON_parse : string -> option value.

(** The parsed response payload: the captured body when it is a (non-empty)
    string that parses. *)
Definition parsed_payload (b : body) : option value :=
  string_body b ≫= JSON_parse.

Definition precedence_targetId (getTargetId : option Resolver)
    (req : Request) (res : Res) (b : body) : outcome value :=
  match getTargetId with
  | Some resolver => resolver req res
  | None =>
      Ret (match first_path_parameter req with
           | Some s => VStr s
           | None =>
               match parsed_payload b ≫= first_present_in_payload with
               | Some v => v
               | None => unknown
               end
           end)
  end.

End ResolutionOrder.

(** ** More sample data: payloads, requests, a parser for the examples *)

Definition dq : string := String (ascii_of_nat 34) "".

(** The text [{"data":{"reminder":{"id":"r-1"}}}]. *)
Definition reminder_payload_text : string :=
  "{" ++ dq ++ "data" ++ dq ++ ":{" ++ dq ++ "reminder" ++ dq ++ ":{"
      ++ dq ++ "id" ++ dq ++ ":" ++ dq ++ "r-1" ++ dq ++ "}}}".

Definition reminder_payload : value :=
  VObj [("data", VObj [("reminder", VObj [("id", VStr "r-1")])])].

(** [JSON.parse] on the three texts the examples use; every other text is
    taken to be malformed. *)
Definition sample_JSON_parse (s : string) : option value :=
  if String.eqb s reminder_payload_text then Some reminder_payload
  else if String.eqb s "null" then Some VNull
  else if String.eqb s "{}" then Some (VObj [])
  else None.

Definition ok_200 : Res := {| statusCode := 200 |}.
Definition created_201 : Res := {| statusCode := 201 |}.

(** [PATCH /api/backup-reminders/r-7] by Alice. *)
Definition patch_reminder_request : Request :=
  sample_request (actor alice) [("id", "r-7")] empty_query [].

(** [POST /api/backup-reminders] by Alice: no path parameter. *)
Definition post_reminder_request : Request :=
  sample_request (actor alice) [] empty_query [].

Definition anonymous_request : Request :=
  sample_request VUndefined [] empty_query [].

Definition throwing_resolver : Resolver := fun _ _ => Throw "resolver failed".

(** [POST /api/stations] by Alice with a valid body. *)
Definition create_station_request : Request :=
  sample_request (actor alice) [] empty_query
    [ ("stationName", VStr "Depot 4"); ("serialNumber", VStr "SN-0042");
      ("location", VStr "Moshi") ].

Definition depot_4 : Station :=
  {| station_id := sample_uuid 0; stationName := "Depot 4";
     serialNumber := "SN-0042"; location := "Moshi"; createdBy := alice_id |}.

(** ** Read-only and append-only computations *)

(** The computation leaves the store and the detached writes as they were
    (it may write to the diagnostics channel). *)
Definition preserves_store {A} (m : M A) : Prop :=
  forall w, db (m w).2 = db w /\ pending (m w).2 = pending w.

(** The computation keeps every stored AuditEvent, unchanged and in place: the
    audit log afterwards is the audit log before, followed by new rows. *)
Definition appends_only {A} (m : M A) : Prop :=
  forall w, exists new : list AuditLog,
    AuditLogs (db (m w).2) = (AuditLogs (db w) ++ new)%list.

Definition always_returns {A} (m : M A) : Prop :=
  forall w, exists a, (m w).1 = Ret a.

(** ** Requests that differ in their query string *)

Definition with_query (req : Request) (q : Query) : Request :=
  {| req_user := req_user req; params := params req;
     header_x_forwarded_for := header_x_forwarded_for req;
     connection_remoteAddress := connection_remoteAddress req;
     socket_remoteAddress := socket_remoteAddress req;
     query := q; req_body := req_body req |}.

Definition with_page (q : Query) (p : Z) : Query :=
  {| q_page := Some p; q_limit := q_limit q; q_userId := q_userId q;
     q_action := q_action q; q_targetType := q_targetType q;
     q_targetId := q_targetId q; q_startDate := q_startDate q;
     q_endDate := q_endDate q; q_search := q_search q; q_days := q_days q;
     q_other := q_other q; q_days_rank := q_days_rank q |}.

(** The same request asking for page [p]. *)
Definition on_page (req : Request) (p : Z) : Request :=
  with_query req (with_page (query req) p).

(** The items of a list response (none when the response is not a list). *)
Definition page_items (r : outcome Response * World) : list JoinedLog :=
  match r.1 with
  | Ret {| payload := AuditLogsBody items _ |} => items
  | Ret {| payload := UserAuditLogsBody items _ _ |} => items
  | _ => []
  end.

Definition response_status (r : outcome Response * World) : option Z :=
  match r.1 with Ret resp => Some (status resp) | Throw _ => None end.

(** The rows a validated filter set selects, newest first. *)
Definition selected (v : ListParams) (d : Database) : list AuditLog :=
  newest_first (List.filter (eval_where (Users d) (list_where v)) (AuditLogs d)).


(** ** Sample audit log *)

Definition event (n : nat) (act kind target : string) (ts : Z) : AuditLog :=
  {| id := sample_uuid n; userId := alice_id; action := act; targetType := kind;
     targetId := target; timestamp := ts; ipAddress := "203.0.113.7";
     createdAt := ts; updatedAt := ts |}.

(** Three events of January 2025. *)
Definition january_events : list AuditLog :=
  [ event 1 "STATION_CREATED" "Station" "s-1" 1736000000000;
    event 2 "STATION_UPDATED" "Station" "s-1" 1736100000000;
    event 3 "USER_LOGIN" "User" alice_id 1736200000000 ].

Definition with_events (events : list AuditLog) (w : World) : World :=
  with_db {| AuditLogs := events; Users := Users (db w); Stations := Stations (db w);
             connected := connected (db w);
             AuditLogs_writable := AuditLogs_writable (db w) |} w.

Definition january_world : World := with_events january_events sample_world.

(** [?startDate=2025-02-01&endDate=2025-01-01]. *)
Definition reversed_range_query : Query :=
  {| q_page := None; q_limit := None; q_userId := None; q_action := None;
     q_targetType := None; q_targetId := None;
     q_startDate := Some (ISODate 1738368000000);
     q_endDate := Some (ISODate 1735689600000);
     q_search := None; q_days := None; q_other := []; q_days_rank := 0 |}.

Definition reversed_range_request : Request :=
  sample_request (actor alice) [] reversed_range_query [].

(** [?limit=2] on the January events: two pages. *)
Definition two_per_page_query : Query :=
  {| q_page := None; q_limit := Some 2%Z; q_userId := None; q_action := None;
     q_targetType := None; q_targetId := None; q_startDate := None;
     q_endDate := None; q_search := None; q_days := None;
     q_other := []; q_days_rank := 0 |}.

Definition two_per_page_request : Request :=
  sample_request (actor alice) [] two_per_page_query [].



(** [2100-01-01T00:00:00Z]. *)
Definition year_2100 : Z := 4102444800000.


(** [GET /api/audit-logs?userId=<alice>&limit=150&startDate=2100-01-01]. *)
Definition list_request_150 : Request :=
  sample_request (actor alice) []
    {| q_page := None; q_limit := Some 150%Z; q_userId := Some (Guid alice_id);
       q_action := None; q_targetType := None; q_targetId := None;
       q_startDate := Some (ISODate year_2100); q_endDate := None;
       q_search := None; q_days := None; q_other := []; q_days_rank := 0 |} [].



Definition alice_logs_request : Request :=
  sample_request (actor alice) [("userId", alice_id)] empty_query [].



(** The same query with the given [startDate] and [endDate]. *)
Definition with_dates (q : Query) (s e : DateText) : Query :=
  {| q_page := q_page q; q_limit := q_limit q; q_userId := q_userId q;
     q_action := q_action q; q_targetType := q_targetType q;
     q_targetId := q_targetId q; q_startDate := Some s; q_endDate := Some e;
     q_search := q_search q; q_days := q_days q; q_other := q_other q;
     q_days_rank := q_days_rank q |}.

(** ** What an accepted insert leaves behind *)

(** The row [AuditLog.create] builds in world [w] for string attributes. *)
Definition recorded_row (w : World) (uid act kind tid ip : string) (ts : Z) : AuditLog :=
  {| id := uuid_source w (uuid_drawn w); userId := uid; action := act;
     targetType := kind; targetId := tid; timestamp := ts; ipAddress := ip;
     createdAt := clock w; updatedAt := clock w |}.

(** The world after that row has been appended and its id drawn. *)
Definition after_insert (w : World) (row : AuditLog) : World :=
  {| db := {| AuditLogs := AuditLogs (db w) ++ [row]; Users := Users (db w);
              Stations := Stations (db w); connected := connected (db w);
              AuditLogs_writable := AuditLogs_writable (db w) |};
     console := console w; clock := clock w; uuid_source := uuid_source w;
     uuid_drawn := S (uuid_drawn w); pending := pending w |}.

(** The store takes an insert for actor [uid]: it is reachable, the Event
    Store accepts inserts, the actor exists and the next identifier is new. *)
Definition accepts_insert (w : World) (uid : string) : Prop :=
  connected (db w) = true
  /\ AuditLogs_writable (db w) = true
  /\ is_Some (find_user uid (Users (db w)))
  /\ existsb (fun r => String.eqb (id r) (uuid_source w (uuid_drawn w)))
             (AuditLogs (db w)) = false.

(** [GET /api/audit-logs/<id>] by Alice. *)
Definition get_event_request (pk : string) : Request :=
  sample_request (actor alice) [("id", pk)] empty_query [].

(** The pagination block of a list response. *)
Definition response_pagination (r : outcome Response * World) : option Pagination :=
  match r.1 with
  | Ret {| payload := AuditLogsBody _ pg |} => Some pg
  | Ret {| payload := UserAuditLogsBody _ _ pg |} => Some pg
  | _ => None
  end.

(** [x] is at least as recent as [y]. *)
Definition not_older (x y : AuditLog) : Prop := (timestamp y <= timestamp x)%Z.

(** [?targetType=Station&startDate=2025-01-04T13:46:40Z]. *)
Definition station_events_query : Query :=
  {| q_page := None; q_limit := None; q_userId := None; q_action := None;
     q_targetType := Some "Station"; q_targetId := None;
     q_startDate := Some (ISODate 1736000000000); q_endDate := None;
     q_search := None; q_days := None; q_other := []; q_days_rank := 0 |}.

Definition station_events_request : Request :=
  sample_request (actor alice) [] station_events_query [].

Definition station_events_params : ListParams :=
  {| page := 1; limit := 10; f_userId := None; f_action := None;
     f_targetType := Some "Station"; f_targetId := None;
     f_startDate := Some 1736000000000%Z; f_endDate := None; f_search := None |}.

Definition two_per_page_params : ListParams :=
  {| page := 1; limit := 2; f_userId := None; f_action := None;
     f_targetType := None; f_targetId := None; f_startDate := None;
     f_endDate := None; f_search := None |}.

(** The same query with [search] set or removed. *)
Definition with_search (q : Query) (s : option string) : Query :=
  {| q_page := q_page q; q_limit := q_limit q; q_userId := q_userId q;
     q_action := q_action q; q_targetType := q_targetType q;
     q_targetId := q_targetId q; q_startDate := q_startDate q;
     q_endDate := q_endDate q; q_search := s; q_days := q_days q;
     q_other := q_other q; q_days_rank := q_days_rank q |}.

(** [?page=0], [?limit=101] and [?search=] on the list endpoint. *)
Definition page_zero_request : Request :=
  sample_request (actor alice) [] (with_page empty_query 0) [].

Definition limit_101_request : Request :=
  sample_request (actor alice) []
    {| q_page := None; q_limit := Some 101%Z; q_userId := None; q_action := None;
       q_targetType := None; q_targetId := None; q_startDate := None;
       q_endDate := None; q_search := None; q_days := None;
       q_other := []; q_days_rank := 0 |} [].

Definition empty_search_request : Request :=
  sample_request (actor alice) [] (with_search empty_query (Some "")) [].

(** The world with the database unreachable. *)
Definition disconnected (w : World) : World :=
  with_db {| AuditLogs := AuditLogs (db w); Users := Users (db w);
             Stations := Stations (db w); connected := false;
             AuditLogs_writable := AuditLogs_writable (db w) |} w.


(** ** Vocabulary for the statistics *)





Definition statistics_request : Request :=
  sample_request (actor alice) [] empty_query [].




(** The role name [authorizeRole] looks at. *)
Definition role_name (req : Request) : value :=
  get_opt (get_opt (req_user req) "role") "name".

Definition unauthorized : Response :=
  {| status := 401; payload := MessageBody false "Unauthorized" |}.

Definition forbidden : Response :=
  {| status := 403; payload := MessageBody false "Insufficient permissions" |}.

(** An authenticated operator, who is no administrator. *)
Definition operator : value :=
  VObj [ ("userId", VStr alice_id); ("username", VStr "alice");
         ("roleId", VStr "role-2");
         ("role", VObj [("id", VStr "role-2"); ("name", VStr "operator");
                        ("status", VStr "active")]) ].

Definition operator_request : Request := sample_request operator [] empty_query [].

(** A user record with another password hash. *)
Definition with_password (hashed : string) (u : User) : User :=
  {| user_id := user_id u; firstName := firstName u; lastName := lastName u;
     username := username u; password := hashed; user_status := user_status u |}.

(** ** Filters the configured dialect cannot evaluate *)

(** A validated list query none of whose filters is compared with
    [Op.iLike]: no [action], and no [search] or an empty one. *)
Definition no_pattern_filter (v : ListParams) : Prop :=
  truthy_string (f_action v) = None /\ truthy_string (f_search v) = None.

(** The error a list query is refused with, if it is refused. *)
Definition validation_error (q : Query) : option FieldError :=
  match getAuditLogsSchema_validate q with
  | inl e => Some e
  | inr _ => None
  end.

(** What a handler answers when a call to the store throws: status 500 and
    one line on the diagnostics channel. *)
Definition internal_error_answer (label : string) (w : World)
  : outcome Response * World :=
  (Ret {| status := 500; payload := InternalErrorBody |},
   with_console (console w ++ [label])%list w).

(** The stored events a where clause selects. *)
Definition matching (wc : WhereClause) (d : Database) : list AuditLog :=
  List.filter (eval_where (Users d) wc) (AuditLogs d).

(** The table is small enough for its row count to be a safe integer. *)
Definition countable (d : Database) : Prop :=
  (Z.of_nat (length (AuditLogs d)) <= max_safe_integer)%Z.

(** [x] is strictly newer than [y]. *)
Definition newer (x y : AuditLog) : Prop := (timestamp y < timestamp x)%Z.

(** [GET /api/audit-logs?action=login]. *)
Definition action_filter_query : Query :=
  {| q_page := None; q_limit := None; q_userId := None; q_action := Some "login";
     q_targetType := None; q_targetId := None; q_startDate := None;
     q_endDate := None; q_search := None; q_days := None; q_other := [];
     q_days_rank := 0 |}.

Definition action_filter_request : Request :=
  sample_request (actor alice) [] action_filter_query [].


(** ** The operation [res.send] and the events it starts *)


(** [JSON.stringify] on the payloads the examples serialise. *)
Definition sample_JSON_stringify (v : value) : option string :=
  match v with
  | VObj [(k1, VObj [(k2, VObj [(k3, VStr i)])])] =>
      if String.eqb k1 "data" && String.eqb k2 "reminder" && String.eqb k3 "id"
         && String.eqb i "r-1"
      then Some reminder_payload_text else None
  | VObj [] => Some "{}"
  | VNull => Some "null"
  | _ => None
  end.


(** ** Monad bookkeeping *)

Local Open Scope list_scope.

Ltac unfold_M :=
  cbv [bind ret throw try_catch lift read_db write_db require_connection
       console_error new_Date draw_uuid internal_error] in *.

(** ** Recorder *)

Lemma createAuditLog_settle_returns p w :
  exists w', createAuditLog_settle p w = (Ret tt, w').
Proof.
  unfold createAuditLog_settle, try_catch, bind.
  destruct (AuditLog_create (pw_call p) (pw_timestamp p) w) as [[row|e] w1]; simpl.
  - now exists w1.
  - unfold console_error. eauto.
Qed.

Lemma createAuditLog_returns u a t tid ip w :
  exists w', createAuditLog u a t tid ip w = (Ret tt, w').
Proof.
  unfold createAuditLog. unfold bind at 1. unfold new_Date.
  apply createAuditLog_settle_returns.
Qed.

(** A rejected insert leaves the store as it was and writes one line to the
    diagnostics channel. *)
Lemma AuditLog_create_prefix c ts w o w' :
  AuditLog_create c ts w = (o, w') ->
  exists new, AuditLogs (db w') = AuditLogs (db w) ++ new
              /\ Users (db w') = Users (db w)
              /\ Stations (db w') = Stations (db w)
              /\ connected (db w') = connected (db w)
              /\ AuditLogs_writable (db w') = AuditLogs_writable (db w)
              /\ pending w' = pending w.
Proof.
  unfold AuditLog_create. unfold_M.
  destruct (connected (db w)) eqn:Hc; simpl.
  2:{ intros [= <- <-]. exists []. now rewrite app_nil_r. }
  destruct (AuditLogs_writable (db w)) eqn:Hw; simpl.
  2:{ intros [= <- <-]. exists []. now rewrite app_nil_r. }
  destruct (as_string (call_userId c)) as [uid|]; simpl.
  2:{ intros [= <- <-]. exists []. now rewrite app_nil_r. }
  destruct (as_string (call_targetId c)) as [tid|]; simpl.
  2:{ intros [= <- <-]. exists []. now rewrite app_nil_r. }
  destruct (as_string (call_ipAddress c)) as [ip|]; simpl.
  2:{ intros [= <- <-]. exists []. now rewrite app_nil_r. }
  destruct (find_user uid (Users (db w))); simpl.
  2:{ intros [= <- <-]. exists []. now rewrite app_nil_r. }
  destruct (existsb _ _); simpl.
  - intros [= <- <-]. exists []. simpl. now rewrite app_nil_r.
  - intros [= <- <-]. simpl. eexists. repeat split; eauto.
Qed.

Lemma createAuditLog_settle_prefix p w o w' :
  createAuditLog_settle p w = (o, w') ->
  exists new, AuditLogs (db w') = AuditLogs (db w) ++ new
              /\ Users (db w') = Users (db w)
              /\ Stations (db w') = Stations (db w)
              /\ connected (db w') = connected (db w)
              /\ AuditLogs_writable (db w') = AuditLogs_writable (db w)
              /\ pending w' = pending w.
Proof.
  unfold createAuditLog_settle, try_catch, bind.
  destruct (AuditLog_create (pw_call p) (pw_timestamp p) w) as [[row|e] w1] eqn:E;
    apply AuditLog_create_prefix in E; simpl.
  - now intros [= <- <-].
  - unfold console_error. now intros [= <- <-].
Qed.

Lemma settle_all_returns ps w : exists w', settle_all ps w = (Ret tt, w').
Proof.
  revert w. induction ps as [|p rest IH]; intros w; simpl.
  - now exists w.
  - unfold bind, try_catch.
    destruct (createAuditLog_settle_returns p w) as [w1 ->]. apply IH.
Qed.

Lemma run_pending_returns w : exists w', run_pending w = (Ret tt, w').
Proof. unfold run_pending. apply settle_all_returns. Qed.

Lemma createAuditLog_rejected u a t tid ip w :
  createAuditLog u a t tid ip (set_writable false w)
  = (Ret tt, with_console (console w ++ ["Error creating audit log:"]) (set_writable false w)).
Proof.
  unfold createAuditLog, createAuditLog_settle, AuditLog_create. unfold_M. simpl.
  now destruct (connected (db w)).
Qed.

Ltac settle_createAuditLog :=
  match goal with
  | |- context [createAuditLog ?u ?a ?t ?tid ?ip ?w] =>
      let w' := fresh "w'" in
      let E := fresh "E" in
      destruct (createAuditLog_returns u a t tid ip w) as [w' E]; rewrite E; clear E
  end.

(** ** The interception adapter, in one equation *)

Section InterceptionFacts.

Variable JSON_parse : string -> option value.

Lemma send_eq action targetType g req res b w :
  send JSON_parse action targetType g req res b w =
  (Ret b,
   if success_status res && has_actor req then
     match resolve_targetId JSON_parse g req res b with
     | Ret v =>
         with_pending (pending w ++ [dispatched_write action targetType req v w]) w
     | Throw _ =>
         with_console (console w ++ ["Error in audit logging middleware:"]) w
     end
   else w).
Proof.
  unfold send, has_actor.
  destruct (success_status res); simpl; [|reflexivity].
  destruct (truthy (req_user req) && truthy (get_opt (req_user req) "userId")); simpl;
    [|reflexivity].
  unfold createAuditLog_detached. unfold_M.
  now destruct (resolve_targetId JSON_parse g req res b).
Qed.

End InterceptionFacts.

(** ** [changePassword] and the Event Store *)

Lemma changePassword_response_independent cmp hash req flag w :
  (changePassword cmp hash req (set_writable flag w)).1
  = (changePassword cmp hash req w).1.
Proof.
  unfold changePassword.
  cbv [try_catch bind ret internal_error console_error].
  destruct (negb (truthy (get_opt (req_user req) "userId"))); [reflexivity|].
  destruct (changePasswordSchema_validate (req_body req)) as [err|[cur new]];
    [reflexivity|].
  assert (Hfind :
    forall w0, connected (db w0) = connected (db w) -> Users (db w0) = Users (db w) ->
      match as_string (get_opt (req_user req) "userId") with
      | Some uid => User_findByPk uid
      | None => fun w1 => let (o, w'0) := require_connection w1 in
                          match o with Ret _ => (Ret None, w'0) | Throw e => (Throw e, w'0) end
      end w0
      = (if connected (db w) then Ret (match as_string (get_opt (req_user req) "userId") with
                                      | Some uid => find_user uid (Users (db w))
                                      | None => None end)
         else Throw "SequelizeConnectionError", w0)).
  { intros w0 Hc Hu.
    destruct (as_string _); unfold User_findByPk; unfold_M; rewrite Hc;
      destruct (connected (db w)); rewrite ?Hu; reflexivity. }
  rewrite (Hfind (set_writable flag w)), (Hfind w) by reflexivity.
  clear Hfind.
  destruct (connected (db w)) eqn:Hc; [|reflexivity].
  destruct (match as_string _ with Some uid => _ | None => None end) as [user|];
    [|reflexivity].
  destruct (negb (cmp cur (password user))); [reflexivity|].
  unfold User_update_password. unfold_M. simpl. rewrite Hc.
  repeat settle_createAuditLog. reflexivity.
Qed.

(** The password change succeeds, with its usual response, while the Event
    Store rejects the insert: the password is changed, no event is stored,
    one diagnostic line is written. *)
Example changePassword_with_store_down :
  let '(o, w') := changePassword sample_bcrypt_compare sample_bcrypt_hash
                    change_password_request (set_writable false sample_world) in
  o = Ret {| status := 200; payload := MessageBody true "Password changed successfully" |}
  /\ AuditLogs (db w') = []
  /\ password <$> Users (db w') = ["hash:new-secret"]
  /\ console w' = ["Error creating audit log:"].
Proof. vm_compute. repeat split. Qed.

(** With the store up, the same call stores one event. *)
Example changePassword_with_store_up :
  let '(o, w') := changePassword sample_bcrypt_compare sample_bcrypt_hash
                    change_password_request sample_world in
  o = Ret {| status := 200; payload := MessageBody true "Password changed successfully" |}
  /\ (fun r => (userId r, action r, targetType r, targetId r, ipAddress r))
       <$> AuditLogs (db w')
     = [(alice_id, "PASSWORD_CHANGED", "User", alice_id, "203.0.113.7")]
  /\ console w' = [].
Proof. vm_compute. repeat split. Qed.

(** C1.  [createAuditLog] returns normally from every state of the store and
    for every argument list: it never throws to its caller.  When the Event
    Store rejects the insert the call still returns, the rejection is written
    to the diagnostics channel and the store is left as it was.  Consequently
    the response of a business mutation that awaits it ([changePassword]) is
    the same whether or not the Event Store accepts the insert, the response
    handed to the original [send] by the interception adapter is the
    handler's own, and settling the detached writes never throws. *)
Theorem createAuditLog_never_throws :
  (forall userId action targetType targetId ipAddress w,
      exists w', createAuditLog userId action targetType targetId ipAddress w
                 = (Ret tt, w'))
  /\ (forall userId action targetType targetId ipAddress w,
        createAuditLog userId action targetType targetId ipAddress (set_writable false w)
        = (Ret tt, with_console (console w ++ ["Error creating audit log:"])
                     (set_writable false w)))
  /\ (forall cmp hash req flag w,
        (changePassword cmp hash req (set_writable flag w)).1
        = (changePassword cmp hash req w).1)
  /\ (forall JSON_parse action targetType getTargetId req res b w,
        (send JSON_parse action targetType getTargetId req res b w).1 = Ret b)
  /\ (forall w, exists w', run_pending w = (Ret tt, w')).
Proof.
  split; [exact createAuditLog_returns|].
  split; [exact createAuditLog_rejected|].
  split; [exact changePassword_response_independent|].
  split; [|exact run_pending_returns].
  intros. now rewrite send_eq.
Qed.

(** ** Target resolution *)

Lemma truthy_get_opt v k : truthy (get_opt v k) = true -> truthy v = true.
Proof. destruct v; simpl; try discriminate; auto. Qed.

Lemma has_nested_id_present data k :
  has_nested_id data k = present (at_path data [k; "id"]).
Proof.
  unfold has_nested_id, nested_id, present. simpl.
  destruct (truthy (get_opt (get_opt data k) "id")) eqn:E.
  - pose proof (truthy_get_opt _ _ E) as E1.
    pose proof (truthy_get_opt _ _ E1) as E2. now rewrite E1, E2.
  - now rewrite andb_false_r.
Qed.

Lemma top_level_id_present data :
  truthy data && truthy (get_opt data "id") = present (at_path data ["id"]).
Proof.
  unfold present. simpl. destruct (truthy (get_opt data "id")) eqn:E.
  - now rewrite (truthy_get_opt _ _ E).
  - now rewrite andb_false_r.
Qed.

(** The [if / else if] chain is the search for the first present location. *)
Lemma payload_walk_found payload :
  payload_walk payload =
  match payload with
  | VUndefined | VNull => Throw "TypeError"
  | _ => Ret (first_present_in_payload payload)
  end.
Proof.
  assert (H : forall data,
    (if truthy data && truthy (get_opt data "id") then Some (get_opt data "id")
     else if has_nested_id data "user" then Some (nested_id data "user")
     else if has_nested_id data "station" then Some (nested_id data "station")
     else if has_nested_id data "profile" then Some (nested_id data "profile")
     else if has_nested_id data "backup" then Some (nested_id data "backup")
     else if has_nested_id data "reminder" then Some (nested_id data "reminder")
     else if has_nested_id data "role" then Some (nested_id data "role")
     else None)
    = List.find present (at_path data <$> (tail <$> payload_locations))).
  { intros data. rewrite top_level_id_present, !has_nested_id_present.
    unfold nested_id. simpl.
    repeat match goal with |- context [if present ?v then _ else _] =>
                             destruct (present v) end; reflexivity. }
  unfold payload_walk, first_present_in_payload.
  destruct payload; simpl; try reflexivity; f_equal; apply H.
Qed.

Lemma no_location_in_null payload :
  match payload with VUndefined | VNull => True | _ => False end ->
  first_present_in_payload payload = None.
Proof. destruct payload; simpl; intros []; reflexivity. Qed.

Section ResolutionFacts.

Variable JSON_parse : string -> option value.

Lemma resolve_targetId_precedence g req res b :
  resolve_targetId JSON_parse g req res b = precedence_targetId JSON_parse g req res b.
Proof.
  unfold resolve_targetId, precedence_targetId, first_path_parameter, parsed_payload.
  destruct g as [f|]; [reflexivity|]. simpl.
  destruct (param req "id"); [reflexivity|].
  destruct (param req "stationId"); [reflexivity|].
  destruct (param req "userId"); [reflexivity|]. simpl.
  destruct (string_body b) as [s|]; [|reflexivity]. simpl.
  destruct (JSON_parse s) as [payload|]; [|reflexivity]. simpl.
  rewrite payload_walk_found.
  destruct payload; simpl; try reflexivity;
    match goal with |- context [first_present_in_payload ?p] =>
                      destruct (first_present_in_payload p) end; reflexivity.
Qed.

Lemma path_parameter_wins req res b s :
  first_path_parameter req = Some s ->
  resolve_targetId JSON_parse None req res b = Ret (VStr s).
Proof.
  intros H. rewrite resolve_targetId_precedence. simpl. now rewrite H.
Qed.

(** Without a caller-supplied resolver the resolution always yields a value. *)
Lemma resolve_targetId_total req res b :
  exists v, resolve_targetId JSON_parse None req res b = Ret v.
Proof. rewrite resolve_targetId_precedence. simpl. eauto. Qed.

End ResolutionFacts.

Example reminder_created_target :
  resolve_targetId sample_JSON_parse None post_reminder_request created_201
    (BodyValue (VStr reminder_payload_text)) = Ret (VStr "r-1").
Proof. vm_compute. reflexivity. Qed.

Example path_beats_payload :
  resolve_targetId sample_JSON_parse None patch_reminder_request ok_200
    (BodyValue (VStr reminder_payload_text)) = Ret (VStr "r-7").
Proof. vm_compute. reflexivity. Qed.

(** C2.  The target id is resolved by strict precedence: the caller-supplied
    resolver's result if one is given; otherwise the path parameter [id], then
    [stationId], then [userId]; otherwise the first present value among
    [data.id], [data.user.id], [data.station.id], [data.profile.id],
    [data.backup.id], [data.reminder.id], [data.role.id] in the parsed
    response payload; otherwise ["unknown"].  In particular a path parameter
    wins over any payload value. *)
Theorem target_resolution_precedence :
  (forall JSON_parse getTargetId req res b,
      resolve_targetId JSON_parse getTargetId req res b
      = precedence_targetId JSON_parse getTargetId req res b)
  /\ (forall JSON_parse req res b s,
        first_path_parameter req = Some s ->
        resolve_targetId JSON_parse None req res b = Ret (VStr s)).
Proof.
  split.
  - exact resolve_targetId_precedence.
  - exact path_parameter_wins.
Qed.

Lemma target_resolution_precedence_witness :
  first_path_parameter patch_reminder_request = Some "r-7"
  /\ parsed_payload sample_JSON_parse (BodyValue (VStr reminder_payload_text))
       ≫= first_present_in_payload = Some (VStr "r-1")
  /\ resolve_targetId sample_JSON_parse None patch_reminder_request ok_200
       (BodyValue (VStr reminder_payload_text)) = Ret (VStr "r-7").
Proof.
  split; [vm_compute; reflexivity|].
  split; [vm_compute; reflexivity|].
  apply (proj2 target_resolution_precedence). vm_compute. reflexivity.
Defined.

(** ** The interception adapter *)

Section AdapterFacts.

Variable JSON_parse : string -> option value.

Lemma send_delivers action targetType g req res b w :
  (send JSON_parse action targetType g req res b w).1 = Ret b.
Proof. now rewrite send_eq. Qed.

Lemma send_dispatches action targetType g req res b w v :
  success_status res = true -> has_actor req = true ->
  resolve_targetId JSON_parse g req res b = Ret v ->
  send JSON_parse action targetType g req res b w
  = (Ret b, with_pending (pending w ++ [dispatched_write action targetType req v w]) w).
Proof. intros Hs Ha Hr. now rewrite send_eq, Hs, Ha, Hr. Qed.

Lemma send_resolver_throws action targetType g req res b w e :
  success_status res = true -> has_actor req = true ->
  resolve_targetId JSON_parse g req res b = Throw e ->
  send JSON_parse action targetType g req res b w
  = (Ret b, with_console (console w ++ ["Error in audit logging middleware:"]) w).
Proof. intros Hs Ha Hr. now rewrite send_eq, Hs, Ha, Hr. Qed.

Lemma send_skips action targetType g req res b w :
  success_status res && has_actor req = false ->
  send JSON_parse action targetType g req res b w = (Ret b, w).
Proof. intros H. now rewrite send_eq, H. Qed.

Lemma unresolved_is_unknown req res b :
  first_path_parameter req = None ->
  parsed_payload JSON_parse b ≫= first_present_in_payload = None ->
  resolve_targetId JSON_parse None req res b = Ret unknown.
Proof.
  intros Hp Hb. rewrite resolve_targetId_precedence. simpl. now rewrite Hp, Hb.
Qed.


End AdapterFacts.


(** The reminder is created and its id is found in the payload at
    [data.reminder.id]; one write is started. *)
Example reminder_created_dispatch :
  auditReminderCreated sample_JSON_parse post_reminder_request created_201
    (BodyValue (VStr reminder_payload_text)) sample_world
  = (Ret (BodyValue (VStr reminder_payload_text)),
     with_pending
       [{| pw_call := {| call_userId := VStr alice_id;
                         call_action := "REMINDER_CREATED";
                         call_targetType := "BackupReminder";
                         call_targetId := VStr "r-1";
                         call_ipAddress := VStr "203.0.113.7" |};
           pw_timestamp := 1752650000000 |}] sample_world).
Proof. vm_compute. reflexivity. Qed.

(** C3, as stated, fails here.  At status 200 with Alice as the actor, a
    resolver that throws: the response is delivered, no write is started, one
    diagnostic line is written; no event is dispatched with a degraded target
    id. *)
Lemma throwing_resolver_drops_the_event :
  success_status ok_200 = true
  /\ has_actor patch_reminder_request = true
  /\ send sample_JSON_parse AuditActions.REMINDER_UPDATED TargetTypes.BACKUP_REMINDER
          (Some throwing_resolver) patch_reminder_request ok_200
          (BodyValue (VStr reminder_payload_text)) sample_world
     = (Ret (BodyValue (VStr reminder_payload_text)),
        with_console ["Error in audit logging middleware:"] sample_world)
  /\ ~ (exists pw,
          pw ∈ pending (send sample_JSON_parse AuditActions.REMINDER_UPDATED
                          TargetTypes.BACKUP_REMINDER (Some throwing_resolver)
                          patch_reminder_request ok_200
                          (BodyValue (VStr reminder_payload_text)) sample_world).2).
Proof.
  repeat split; try (vm_compute; reflexivity).
  intros [pw H]. vm_compute in H. inversion H.
Qed.

(** C3 (amended).  Target resolution never throws out of the audit path and
    the response handed to the original [send] is the handler's own.  Without
    a caller-supplied resolver the resolution always yields a target id; when
    neither a path parameter nor the payload provides one (malformed payload,
    payload without an id, body that is not parsed) it is ["unknown"], and the
    event is still dispatched with it.  When a caller-supplied resolver throws,
    the exception is caught and logged and no audit event is dispatched. *)
Theorem resolution_failures_are_contained :
  forall JSON_parse action targetType getTargetId req res b w,
    (send JSON_parse action targetType getTargetId req res b w).1 = Ret b
    /\ (exists v, resolve_targetId JSON_parse None req res b = Ret v)
    /\ (success_status res = true -> has_actor req = true ->
        first_path_parameter req = None ->
        parsed_payload JSON_parse b ≫= first_present_in_payload = None ->
        send JSON_parse action targetType None req res b w
        = (Ret b, with_pending
                    (pending w ++ [dispatched_write action targetType req unknown w]) w))
    /\ (success_status res = true -> has_actor req = true ->
        forall resolver e,
          getTargetId = Some resolver -> resolver req res = Throw e ->
          send JSON_parse action targetType getTargetId req res b w
          = (Ret b, with_console (console w ++ ["Error in audit logging middleware:"]) w)).
Proof.
  intros P a t g req res b w.
  split; [apply send_delivers|].
  split; [apply resolve_targetId_total|].
  split.
  - intros Hs Ha Hp Hb. apply send_dispatches; auto.
    now apply unresolved_is_unknown.
  - intros Hs Ha f e -> Hf. eapply send_resolver_throws; eauto.
Qed.

Lemma resolution_failures_are_contained_witness :
  (send sample_JSON_parse "REMINDER_CREATED" "BackupReminder" None
        post_reminder_request created_201 (BodyValue (VStr "{oops")) sample_world
   = (Ret (BodyValue (VStr "{oops")),
      with_pending
        (pending sample_world ++
         [dispatched_write "REMINDER_CREATED" "BackupReminder" post_reminder_request
            unknown sample_world]) sample_world))
  /\ (send sample_JSON_parse "REMINDER_CREATED" "BackupReminder" (Some throwing_resolver)
           post_reminder_request created_201 (BodyValue (VStr "{oops")) sample_world
      = (Ret (BodyValue (VStr "{oops")),
         with_console (console sample_world ++ ["Error in audit logging middleware:"])
           sample_world)).
Proof.
  split.
  - apply (resolution_failures_are_contained sample_JSON_parse "REMINDER_CREATED"
             "BackupReminder" None post_reminder_request created_201
             (BodyValue (VStr "{oops")) sample_world); reflexivity.
  - eapply (resolution_failures_are_contained sample_JSON_parse "REMINDER_CREATED"
              "BackupReminder" (Some throwing_resolver) post_reminder_request
              created_201 (BodyValue (VStr "{oops")) sample_world); reflexivity.
Defined.




(** The same payload handed to [send] as an object and as its serialized
    text: only the text is walked. *)
Example object_body_is_not_walked :
  resolve_targetId sample_JSON_parse None post_reminder_request created_201
    (BodyValue reminder_payload) = Ret (VStr "unknown")
  /\ resolve_targetId sample_JSON_parse None post_reminder_request created_201
       (BodyValue (VStr reminder_payload_text)) = Ret (VStr "r-1").
Proof. split; vm_compute; reflexivity. Qed.


(** The operation for a body the original [send] writes out itself. *)
Lemma res_send_once P S action targetType g req res b w :
  handed_to_json b = None ->
  res_send P S action targetType g req res b w
  = send P action targetType g req res b w.
Proof.
  intros H. unfold res_send, bind. rewrite send_eq. simpl. now rewrite H.
Qed.




(** ** The explicit path: [logAuditEvent] and its call sites *)

Lemma getClientIP_any_of_request req :
  getClientIP_any (Request_value req) = Ret (VStr (getClientIP req)).
Proof.
  unfold getClientIP_any, Request_value, getClientIP, str_or. simpl.
  destruct (header_x_forwarded_for req) as [xff|]; simpl.
  - unfold nonempty. destruct (first_entry xff =? "")%string; simpl; [|reflexivity].
    destruct (connection_remoteAddress req) as [a|]; simpl.
    + unfold nonempty. destruct (a =? "")%string; simpl; [|reflexivity].
      destruct (socket_remoteAddress req) as [c|]; simpl; [|reflexivity].
      unfold or_else. simpl. unfold nonempty. now destruct (c =? "")%string.
    + destruct (socket_remoteAddress req) as [c|]; simpl; [|reflexivity].
      unfold or_else. simpl. unfold nonempty. now destruct (c =? "")%string.
  - destruct (connection_remoteAddress req) as [a|]; simpl.
    + unfold nonempty. destruct (a =? "")%string; simpl; [|reflexivity].
      destruct (socket_remoteAddress req) as [c|]; simpl; [|reflexivity].
      unfold or_else. simpl. unfold nonempty. now destruct (c =? "")%string.
    + destruct (socket_remoteAddress req) as [c|]; simpl; [|reflexivity].
      unfold or_else. simpl. unfold nonempty. now destruct (c =? "")%string.
Qed.

(** Given the request, as its signature asks, [logAuditEvent] records the
    event for the request's actor. *)
Lemma logAuditEvent_given_the_request req action targetType targetId w :
  has_actor req = true ->
  logAuditEvent (Request_value req) action targetType targetId w
  = createAuditLog (get_opt (req_user req) "userId") action targetType targetId
      (VStr (getClientIP req)) w.
Proof.
  unfold has_actor. intros Ha.
  unfold logAuditEvent, try_catch, bind, lift. simpl.
  rewrite Ha, getClientIP_any_of_request.
  destruct (createAuditLog_returns (get_opt (req_user req) "userId") action targetType
              targetId (VStr (getClientIP req)) w) as [w' E].
  now rewrite E.
Qed.

(** Given a string (an actor's id) it finds no [user] on it and does nothing. *)
Lemma logAuditEvent_given_a_string s action targetType targetId w :
  logAuditEvent (VStr s) action targetType targetId w = (Ret tt, w).
Proof. reflexivity. Qed.

(** Given [undefined] the property read throws, which is caught and logged. *)
Lemma logAuditEvent_given_undefined action targetType targetId w :
  logAuditEvent VUndefined action targetType targetId w
  = (Ret tt, with_console (console w ++ ["Error logging audit event:"]) w).
Proof. reflexivity. Qed.

(** [createStation] never reaches the recorder: whatever the request and the
    store, the audit log and the detached writes are as before. *)
Lemma createStation_never_audits req w :
  AuditLogs (db (createStation req w).2) = AuditLogs (db w)
  /\ pending (createStation req w).2 = pending w.
Proof.
  unfold createStation, Station_findOne_serialNumber, Station_create, Station_findByPk.
  unfold_M.
  destruct (createStationSchema_validate (req_body req)) as [err|[[name sn] loc]];
    simpl; [auto|].
  destruct (connected (db w)) eqn:Hc; simpl; [|auto].
  destruct (List.find _ (Stations (db w))); simpl; [auto|].
  destruct (get_opt (req_user req) "userId") as [| | | |uid| |]; simpl;
    rewrite ?Hc; simpl; auto.
  destruct (find_user uid (Users (db w))); simpl; [|auto].
  destruct (existsb _ _); simpl; rewrite ?Hc; simpl; auto.
Qed.

(** C5 (the code at a request it can receive).  Alice, authenticated, creates
    a station with a valid body while the store is up and the Event Store
    accepts inserts.  The station is created and the response is 201, yet no
    AuditEvent is created or dispatched, and nothing is logged: the audit step
    passes the actor's id where [logAuditEvent] reads a request.  Called with
    the request itself, [logAuditEvent] does record STATION_CREATED /
    Station.  More generally no request makes [createStation] add to the
    audit log or start a detached write. *)
Theorem createStation_creates_no_audit_event :
  has_actor create_station_request = true
  /\ (forall req w,
        AuditLogs (db (createStation req w).2) = AuditLogs (db w)
        /\ pending (createStation req w).2 = pending w)
  /\ createStation create_station_request sample_world
     = (Ret {| st_status := 201;
               st_payload := StationCreated (Some (depot_4, Some (user_info alice))) |},
        {| db := {| AuditLogs := []; Users := [alice]; Stations := [depot_4];
                    connected := true; AuditLogs_writable := true |};
           console := []; clock := clock sample_world;
           uuid_source := sample_uuid; uuid_drawn := 1; pending := [] |})
  /\ (fun r => (userId r, action r, targetType r, targetId r))
       <$> AuditLogs (db (logAuditEvent (Request_value create_station_request)
                            AuditActions.STATION_CREATED TargetTypes.STATION
                            (VStr (station_id depot_4)) sample_world).2)
     = [(alice_id, "STATION_CREATED", "Station", station_id depot_4)].
Proof.
  split; [reflexivity|].
  split; [exact createStation_never_audits|].
  split; vm_compute; reflexivity.
Qed.

(** ** The query engine reads; the recorder appends *)

Create HintDb store discriminated.

Lemma preserves_ret {A} (a : A) : preserves_store (ret a).
Proof. intros w. now split. Qed.

Lemma preserves_throw {A} e : preserves_store (@throw A e).
Proof. intros w. now split. Qed.

Lemma preserves_lift {A} (o : outcome A) : preserves_store (lift o).
Proof. intros w. now split. Qed.

Lemma preserves_bind {A B} (m : M A) (k : A -> M B) :
  preserves_store m -> (forall a, preserves_store (k a)) -> preserves_store (bind m k).
Proof.
  intros Hm Hk w. unfold bind. specialize (Hm w).
  destruct (m w) as [[a|e] w1]; simpl in *; [|exact Hm].
  destruct (Hk a w1) as [H1 H2]. destruct Hm as [H3 H4]. split; congruence.
Qed.

Lemma preserves_try_catch {A} (m : M A) (h : string -> M A) :
  preserves_store m -> (forall e, preserves_store (h e)) -> preserves_store (try_catch m h).
Proof.
  intros Hm Hh w. unfold try_catch. specialize (Hm w).
  destruct (m w) as [[a|e] w1]; simpl in *; [exact Hm|].
  destruct (Hh e w1) as [H1 H2]. destruct Hm as [H3 H4]. split; congruence.
Qed.

Lemma preserves_console_error msg : preserves_store (console_error msg).
Proof. intros w. now split. Qed.

Lemma preserves_new_Date : preserves_store new_Date.
Proof. intros w. now split. Qed.

Lemma preserves_read_db : preserves_store read_db.
Proof. intros w. now split. Qed.

#[local] Hint Resolve preserves_ret preserves_throw preserves_lift preserves_console_error
  preserves_new_Date preserves_read_db : store.

Ltac store_step :=
  match goal with
  | |- preserves_store (bind _ _) => apply preserves_bind
  | |- preserves_store (try_catch _ _) => apply preserves_try_catch
  | |- preserves_store (match ?x with _ => _ end) => destruct x
  | |- preserves_store (let _ := _ in _) => cbv zeta
  | |- forall _, _ => intro
  end.

Ltac store_solve := repeat store_step; auto with store.

Lemma preserves_require_connection : preserves_store require_connection.
Proof. unfold require_connection. store_solve. Qed.
#[local] Hint Resolve preserves_require_connection : store.

Lemma preserves_internal_error label : preserves_store (internal_error label).
Proof. unfold internal_error. store_solve. Qed.
#[local] Hint Resolve preserves_internal_error : store.

Lemma preserves_User_findByPk uid : preserves_store (User_findByPk uid).
Proof. unfold User_findByPk. store_solve. Qed.

Lemma preserves_findAndCountAll wc limit offset :
  preserves_store (AuditLog_findAndCountAll wc limit offset).
Proof. unfold AuditLog_findAndCountAll. store_solve. Qed.

Lemma preserves_findByPk pk : preserves_store (AuditLog_findByPk pk).
Proof. unfold AuditLog_findByPk. store_solve. Qed.

Lemma preserves_count wc : preserves_store (AuditLog_count wc).
Proof. unfold AuditLog_count. store_solve. Qed.

Lemma preserves_findAll_grouped {K} `{EqDecision K} wc
    (key : list User -> AuditLog -> K) before limit :
  preserves_store (AuditLog_findAll_grouped wc key before limit).
Proof. unfold AuditLog_findAll_grouped. store_solve. Qed.

#[local] Hint Resolve preserves_User_findByPk preserves_findAndCountAll preserves_findByPk
  preserves_count preserves_findAll_grouped : store.

Lemma getAuditLogs_preserves req : preserves_store (getAuditLogs req).
Proof. unfold getAuditLogs. store_solve. Qed.

Lemma getAuditLogById_preserves req : preserves_store (getAuditLogById req).
Proof. unfold getAuditLogById. store_solve. Qed.

Lemma getAuditLogsByUser_preserves req : preserves_store (getAuditLogsByUser req).
Proof. unfold getAuditLogsByUser. store_solve. Qed.

Lemma getAuditLogStatistics_preserves req : preserves_store (getAuditLogStatistics req).
Proof. unfold getAuditLogStatistics. store_solve. Qed.

Lemma handler_always_returns {A} (m : M A) (h : string -> M A) :
  (forall e, always_returns (h e)) -> always_returns (try_catch m h).
Proof.
  intros Hh w. unfold try_catch. destruct (m w) as [[a|e] w1]; simpl; [eauto|apply Hh].
Qed.

Lemma internal_error_returns label : always_returns (internal_error label).
Proof. intros w. eexists. reflexivity. Qed.

Lemma query_handlers_return h f req :
  query_handler h = Some f -> always_returns (f req).
Proof.
  destruct h; intros [= <-]; apply handler_always_returns; intros;
    apply internal_error_returns.
Qed.

Lemma query_handlers_preserve h f req :
  query_handler h = Some f -> preserves_store (f req).
Proof.
  destruct h; intros [= <-];
    auto using getAuditLogs_preserves, getAuditLogById_preserves,
               getAuditLogsByUser_preserves, getAuditLogStatistics_preserves.
Qed.

Lemma query_route_reads h f :
  query_handler h = Some f ->
  forall req, always_returns (f req) /\ preserves_store (f req).
Proof. eauto using query_handlers_return, query_handlers_preserve. Qed.

Ltac route_is_read_only :=
  match goal with
  | |- context [handler (route _ _ ?h)] =>
      split; [reflexivity|]; split; [reflexivity|];
      eexists; split; [reflexivity|]; exact (query_route_reads h _ eq_refl)
  end.

(** *** Append-only *)

Lemma preserves_appends {A} (m : M A) : preserves_store m -> appends_only m.
Proof. intros H w. exists []. destruct (H w) as [-> _]. now rewrite app_nil_r. Qed.

Lemma appends_bind {A B} (m : M A) (k : A -> M B) :
  appends_only m -> (forall a, appends_only (k a)) -> appends_only (bind m k).
Proof.
  intros Hm Hk w. unfold bind. specialize (Hm w).
  destruct (m w) as [[a|e] w1]; simpl in *; [|exact Hm].
  destruct Hm as [l1 H1]. destruct (Hk a w1) as [l2 H2].
  exists (l1 ++ l2). now rewrite H2, H1, app_assoc.
Qed.

Lemma appends_try_catch {A} (m : M A) (h : string -> M A) :
  appends_only m -> (forall e, appends_only (h e)) -> appends_only (try_catch m h).
Proof.
  intros Hm Hh w. unfold try_catch. specialize (Hm w).
  destruct (m w) as [[a|e] w1]; simpl in *; [exact Hm|].
  destruct Hm as [l1 H1]. destruct (Hh e w1) as [l2 H2].
  exists (l1 ++ l2). now rewrite H2, H1, app_assoc.
Qed.

Ltac appends_step :=
  match goal with
  | |- appends_only (bind _ _) => apply appends_bind
  | |- appends_only (try_catch _ _) => apply appends_try_catch
  | |- appends_only (match ?x with _ => _ end) => destruct x
  | |- appends_only (let _ := _ in _) => cbv zeta
  | |- forall _, _ => intro
  end.

Lemma AuditLog_create_appends c ts : appends_only (AuditLog_create c ts).
Proof.
  intros w. destruct (AuditLog_create c ts w) as [o w'] eqn:E.
  destruct (AuditLog_create_prefix _ _ _ _ _ E) as (new & H & _). now exists new.
Qed.

Lemma createAuditLog_settle_appends p : appends_only (createAuditLog_settle p).
Proof.
  intros w. destruct (createAuditLog_settle p w) as [o w'] eqn:E.
  destruct (createAuditLog_settle_prefix _ _ _ _ E) as (new & H & _). now exists new.
Qed.

Lemma createAuditLog_appends u a t tid ip : appends_only (createAuditLog u a t tid ip).
Proof.
  unfold createAuditLog. apply appends_bind.
  - apply preserves_appends, preserves_new_Date.
  - intros ts. apply createAuditLog_settle_appends.
Qed.

Lemma settle_all_appends ps : appends_only (settle_all ps).
Proof.
  induction ps as [|p rest IH]; simpl.
  - apply preserves_appends, preserves_ret.
  - apply appends_bind; [|intros; exact IH].
    apply appends_try_catch; [apply createAuditLog_settle_appends|].
    intros. apply preserves_appends, preserves_console_error.
Qed.

Lemma run_pending_appends : appends_only run_pending.
Proof.
  intros w. unfold run_pending.
  destruct (settle_all_appends (pending w) (with_pending [] w)) as [new H]. now exists new.
Qed.

Lemma logAuditEvent_appends req a t tid : appends_only (logAuditEvent req a t tid).
Proof.
  unfold logAuditEvent. repeat appends_step;
    auto using createAuditLog_appends, preserves_appends with store.
Qed.

Lemma Station_create_appends name sn loc creator :
  appends_only (Station_create name sn loc creator).
Proof.
  intros w. exists []. rewrite app_nil_r.
  unfold Station_create. unfold_M.
  destruct (connected (db w)); simpl; [|reflexivity].
  destruct (as_string creator); simpl; [|reflexivity].
  destruct (find_user _ _); simpl; [|reflexivity].
  now destruct (existsb _ _).
Qed.

Lemma createStation_appends req : appends_only (createStation req).
Proof.
  unfold createStation, Station_findOne_serialNumber, Station_findByPk.
  repeat appends_step;
    auto using Station_create_appends, logAuditEvent_appends, preserves_appends
      with store.
Qed.

Lemma User_update_password_appends uid hashed :
  appends_only (User_update_password uid hashed).
Proof.
  intros w. exists []. rewrite app_nil_r.
  unfold User_update_password. unfold_M. now destruct (connected (db w)).
Qed.

Lemma changePassword_appends cmp hash req : appends_only (changePassword cmp hash req).
Proof.
  unfold changePassword.
  repeat appends_step;
    auto using User_update_password_appends, createAuditLog_appends, preserves_appends
      with store.
Qed.

Lemma send_preserves_db P a t g req res b w :
  db (send P a t g req res b w).2 = db w.
Proof.
  rewrite send_eq. simpl.
  destruct (success_status res && has_actor req); [|reflexivity].
  now destruct (resolve_targetId P g req res b).
Qed.

(** C6.  The audit-log router exposes four routes, all of them GET and none
    behind an auditing middleware; each of their handlers, on every request
    and in every state, returns a response and leaves the store exactly as it
    was.  Every modelled operation that does write (the recorder, the event
    loop settling detached writes, [logAuditEvent], the adapter's [send],
    [createStation], [changePassword]) keeps all existing AuditEvents
    unchanged and in place: the audit log only grows at its end. *)
Theorem audit_log_is_append_only :
  Forall (fun r =>
            method r = GET /\ audit_middleware r = None
            /\ exists f, query_handler (handler r) = Some f
                         /\ forall req, always_returns (f req) /\ preserves_store (f req))
         auditLogs_router
  /\ handler <$> auditLogs_router
     = [H_getAuditLogs; H_getAuditLogStatistics; H_getAuditLogsByUser; H_getAuditLogById]
  /\ (forall u a t tid ip, appends_only (createAuditLog u a t tid ip))
  /\ appends_only run_pending
  /\ (forall req a t tid, appends_only (logAuditEvent req a t tid))
  /\ (forall P a t g req res b w, db (send P a t g req res b w).2 = db w)
  /\ (forall req, appends_only (createStation req))
  /\ (forall cmp hash req, appends_only (changePassword cmp hash req)).
Proof.
  split.
  { unfold auditLogs_router.
    repeat (apply List.Forall_cons; [route_is_read_only|]).
    apply List.Forall_nil. }
  split; [reflexivity|].
  split; [exact createAuditLog_appends|].
  split; [exact run_pending_appends|].
  split; [exact logAuditEvent_appends|].
  split; [exact send_preserves_db|].
  split; [exact createStation_appends|exact changePassword_appends].
Qed.

(** ** Ordering and filtering of list results *)

Section SortBy.

Context {A : Type} (before : A -> A -> bool) (R : A -> A -> Prop).
Hypothesis before_spec : forall x y, before x y = true <-> R x y.
Hypothesis R_total : forall x y, R x y \/ R y x.
Hypothesis R_trans : forall x y z, R x y -> R y z -> R x z.

Lemma insert_by_Permutation x l : insert_by before x l ≡ₚ x :: l.
Proof.
  induction l as [|y l IH]; simpl; [reflexivity|].
  destruct (before x y); [reflexivity|]. rewrite IH. apply Permutation_swap.
Qed.

Lemma sort_by_Permutation l : sort_by before l ≡ₚ l.
Proof.
  induction l as [|x l IH]; simpl; [reflexivity|].
  now rewrite insert_by_Permutation, IH.
Qed.

Lemma insert_by_sorted x l :
  StronglySorted R l -> StronglySorted R (insert_by before x l).
Proof.
  induction 1 as [|y l Hl IH Hy]; simpl.
  - repeat constructor.
  - destruct (before x y) eqn:E.
    + apply before_spec in E. constructor; [now constructor|].
      constructor; [exact E|]. eapply Forall_impl; [exact Hy|].
      intros z Hz. now apply (R_trans x y z).
    + constructor; [exact IH|].
      rewrite insert_by_Permutation. constructor; [|exact Hy].
      destruct (R_total x y) as [H|H]; [|exact H].
      apply before_spec in H. congruence.
Qed.

Lemma sort_by_sorted l : StronglySorted R (sort_by before l).
Proof.
  induction l as [|x l IH]; simpl; [constructor|]. now apply insert_by_sorted.
Qed.

End SortBy.

Lemma newest_first_sorted l : StronglySorted not_older (newest_first l).
Proof.
  apply sort_by_sorted.
  - intros x y. unfold not_older. apply Z.leb_le.
  - intros x y. unfold not_older. lia.
  - intros x y z. unfold not_older. lia.
Qed.

Lemma newest_first_Permutation l : newest_first l ≡ₚ l.
Proof. apply sort_by_Permutation. Qed.

Lemma StronglySorted_take {A} (R : A -> A -> Prop) n l :
  StronglySorted R l -> StronglySorted R (take n l).
Proof.
  intros H. rewrite <- (take_drop n l) in H. now apply StronglySorted_app_1_l in H.
Qed.

Lemma StronglySorted_drop {A} (R : A -> A -> Prop) n l :
  StronglySorted R l -> StronglySorted R (drop n l).
Proof.
  intros H. rewrite <- (take_drop n l) in H. now apply StronglySorted_app_1_r in H.
Qed.

(** Every row of a window of the sorted selection is a stored row that
    satisfies the where clause. *)
Lemma window_rows_selected us wc rows n m r :
  r ∈ take n (drop m (newest_first (List.filter (eval_where us wc) rows))) ->
  r ∈ rows /\ eval_where us wc r = true.
Proof.
  intros H. apply subseteq_take, subseteq_drop in H.
  rewrite newest_first_Permutation in H.
  apply list_elem_of_In, filter_In in H. destruct H as [H1 H2].
  split; [now apply list_elem_of_In|exact H2].
Qed.

(** What a successful validation says about each key of the query. *)
Lemma eval_where_inv us wc r :
  eval_where us wc r = true ->
  opt_test (w_userId wc) (String.eqb (userId r)) = true
  /\ opt_test (w_targetType wc) (String.eqb (targetType r)) = true
  /\ opt_test (w_targetId wc) (String.eqb (targetId r)) = true
  /\ opt_test (w_timestamp_gte wc) (fun lo => (lo <=? timestamp r)%Z) = true
  /\ opt_test (w_timestamp_lte wc) (fun hi => (timestamp r <=? hi)%Z) = true.
Proof.
  unfold eval_where. rewrite !andb_true_iff. tauto.
Qed.

Lemma truthy_string_nonempty s : s <> ""%string -> truthy_string (Some s) = Some s.
Proof.
  intros H. unfold truthy_string, nonempty. now destruct (String.eqb_spec s "").
Qed.

(** ** The list endpoint *)

Lemma validated_inv q v :
  getAuditLogsSchema_validate q = inr v ->
  check_number "page" (q_page q) 1 1 None = inr (page v)
  /\ check_number "limit" (q_limit q) 10 1 (Some 100%Z) = inr (limit v)
  /\ check_guid "userId" (q_userId q) = inr (f_userId v)
  /\ check_string "action" false (q_action q) = inr (f_action v)
  /\ check_string "targetType" false (q_targetType q) = inr (f_targetType v)
  /\ check_guid "targetId" (q_targetId q) = inr (f_targetId v)
  /\ check_date "startDate" (q_startDate q) = inr (f_startDate v)
  /\ check_date "endDate" (q_endDate q) = inr (f_endDate v)
  /\ check_string "search" true (q_search q) = inr (f_search v)
  /\ unknown_keys q = [].
Proof.
  unfold getAuditLogsSchema_validate, and_then. intros H.
  destruct (check_number "page" (q_page q) 1 1 None); [discriminate|].
  destruct (check_number "limit" (q_limit q) 10 1 (Some 100%Z)); [discriminate|].
  destruct (check_guid "userId" (q_userId q)); [discriminate|].
  destruct (check_string "action" false (q_action q)); [discriminate|].
  destruct (check_string "targetType" false (q_targetType q)); [discriminate|].
  destruct (check_guid "targetId" (q_targetId q)); [discriminate|].
  destruct (check_date "startDate" (q_startDate q)); [discriminate|].
  destruct (check_date "endDate" (q_endDate q)); [discriminate|].
  destruct (check_string "search" true (q_search q)); [discriminate|].
  destruct (unknown_keys q); [|discriminate].
  injection H as <-. simpl. repeat split; reflexivity.
Qed.

Lemma validated_bounds q v :
  getAuditLogsSchema_validate q = inr v ->
  (1 <= page v)%Z /\ (1 <= limit v <= 100)%Z.
Proof.
  unfold getAuditLogsSchema_validate, and_then, check_number.
  destruct (q_page q) as [p|]; destruct (q_limit q) as [l|];
    repeat match goal with
           | |- context [if (?a <? ?b)%Z then _ else _] =>
               destruct (Z.ltb_spec a b)
           | |- context [match ?x with _ => _ end] =>
               lazymatch x with
               | context [if _ then _ else _] => fail
               | _ => destruct x
               end
           end;
    try discriminate; intros [= <-]; simpl; lia.
Qed.

Lemma check_number_in_range field z dflt lo hi :
  (lo <= z)%Z -> (Z.abs z <= max_safe_integer)%Z ->
  (forall h, hi = Some h -> (z <= h)%Z) ->
  check_number field (Some z) dflt lo hi = inr z.
Proof.
  intros Hlo Hsafe Hhi. unfold check_number.
  destruct (Z.ltb_spec max_safe_integer (Z.abs z)); [lia|].
  destruct (Z.ltb_spec z lo); [lia|].
  destruct hi as [h|]; [|reflexivity].
  specialize (Hhi h eq_refl). destruct (Z.ltb_spec h z); [lia|reflexivity].
Qed.

(** A validation result is put together from the results of the keys. *)
Lemma validated_intro q v :
  check_number "page" (q_page q) 1 1 None = inr (page v) ->
  check_number "limit" (q_limit q) 10 1 (Some 100%Z) = inr (limit v) ->
  check_guid "userId" (q_userId q) = inr (f_userId v) ->
  check_string "action" false (q_action q) = inr (f_action v) ->
  check_string "targetType" false (q_targetType q) = inr (f_targetType v) ->
  check_guid "targetId" (q_targetId q) = inr (f_targetId v) ->
  check_date "startDate" (q_startDate q) = inr (f_startDate v) ->
  check_date "endDate" (q_endDate q) = inr (f_endDate v) ->
  check_string "search" true (q_search q) = inr (f_search v) ->
  unknown_keys q = [] ->
  getAuditLogsSchema_validate q = inr v.
Proof.
  intros H1 H2 H3 H4 H5 H6 H7 H8 H9 H10. unfold getAuditLogsSchema_validate, and_then.
  rewrite H1, H2, H3, H4, H5, H6, H7, H8, H9, H10. now destruct v.
Qed.

Lemma validated_on_page q v p :
  getAuditLogsSchema_validate q = inr v -> (1 <= p <= max_safe_integer)%Z ->
  exists v', getAuditLogsSchema_validate (with_page q p) = inr v'
             /\ page v' = p /\ limit v' = limit v /\ list_where v' = list_where v.
Proof.
  intros H Hp.
  apply validated_inv in H.
  destruct H as (H1 & H2 & H3 & H4 & H5 & H6 & H7 & H8 & H9 & H10).
  exists {| page := p; limit := limit v; f_userId := f_userId v; f_action := f_action v;
            f_targetType := f_targetType v; f_targetId := f_targetId v;
            f_startDate := f_startDate v; f_endDate := f_endDate v;
            f_search := f_search v |}.
  split; [|now simpl]. apply validated_intro; try assumption.
  apply (check_number_in_range "page" p 1 1 None); [lia|lia|discriminate].
Qed.

Lemma insert_by_length {A} (before : A -> A -> bool) x l :
  length (insert_by before x l) = S (length l).
Proof.
  induction l as [|y l IH]; simpl; [reflexivity|].
  destruct (before x y); simpl; [reflexivity|]. now rewrite IH.
Qed.

Lemma sort_by_length {A} (before : A -> A -> bool) l :
  length (sort_by before l) = length l.
Proof.
  induction l as [|x l IH]; simpl; [reflexivity|]. now rewrite insert_by_length, IH.
Qed.

Lemma filter_length_le {A} (p : A -> bool) l :
  (length (List.filter p l) <= length l)%nat.
Proof. induction l as [|x l IH]; simpl; [lia|]. destruct (p x); simpl; lia. Qed.


Lemma uses_iLike_list_where v :
  uses_iLike (list_where v) = false <-> no_pattern_filter v.
Proof.
  unfold uses_iLike, list_where, no_pattern_filter. simpl.
  destruct (truthy_string (f_action v)); destruct (truthy_string (f_search v)); simpl;
    intuition discriminate.
Qed.

Lemma pattern_filter_uses_iLike v :
  ~ no_pattern_filter v -> uses_iLike (list_where v) = true.
Proof.
  intros H. destruct (uses_iLike (list_where v)) eqn:E; [reflexivity|].
  now apply uses_iLike_list_where in E.
Qed.

Lemma selected_length v d : length (selected v d) = length (matching (list_where v) d).
Proof. unfold selected, newest_first, matching. apply sort_by_length. Qed.

(** What a validated list query answers while the store is reachable, when
    none of its filters is a pattern. *)
Lemma getAuditLogs_validated req v w :
  getAuditLogsSchema_validate (query req) = inr v ->
  connected (db w) = true ->
  no_pattern_filter v ->
  getAuditLogs req w
  = (Ret {| status := 200;
            payload :=
              AuditLogsBody
                (join_user (Users (db w)) <$>
                   take (Z.to_nat (limit v))
                     (drop (Z.to_nat ((page v - 1) * limit v)) (selected v (db w))))
                (make_pagination (page v) (limit v)
                   (Z.of_nat (length (selected v (db w))))) |}, w).
Proof.
  intros Hv Hc Hno. destruct (validated_bounds _ _ Hv) as [Hp Hl].
  apply uses_iLike_list_where in Hno.
  unfold getAuditLogs. rewrite Hv.
  unfold AuditLog_findAndCountAll. unfold_M. rewrite Hc. simpl. rewrite Hno. simpl.
  destruct (Z.ltb_spec (limit v) 0); [lia|].
  destruct (Z.ltb_spec ((page v - 1) * limit v) 0); [nia|]. simpl.
  unfold selected, newest_first. now rewrite sort_by_length.
Qed.

(** With a pattern filter the statement is refused by the server. *)
Lemma getAuditLogs_pattern_filter req v w :
  getAuditLogsSchema_validate (query req) = inr v ->
  connected (db w) = true ->
  ~ no_pattern_filter v ->
  getAuditLogs req w = internal_error_answer "Get audit logs error:" w.
Proof.
  intros Hv Hc Hp. apply pattern_filter_uses_iLike in Hp.
  unfold getAuditLogs, internal_error_answer. rewrite Hv.
  unfold AuditLog_findAndCountAll. unfold_M. rewrite Hc. simpl. now rewrite Hp.
Qed.

Lemma ceil_div_spec total limit :
  (0 < limit)%Z ->
  exists pages, ceil_div total limit = Num pages
                /\ ((pages - 1) * limit < total <= pages * limit)%Z.
Proof.
  intros Hl. unfold ceil_div. destruct (Z.eqb_spec limit 0); [lia|].
  eexists. split; [reflexivity|].
  pose proof (Z.mul_div_le (- total) limit Hl).
  pose proof (Z.mul_succ_div_gt (- total) limit Hl). nia.
Qed.

(** Cutting a list into pages of [size] loses and repeats nothing. *)
Lemma pages_cover {A} (l : list A) (size count : nat) :
  sum_list ((fun i => length (take size (drop (i * size) l))) <$> seq 0 count)
  = min (count * size) (length l).
Proof.
  induction count as [|k IH]; [reflexivity|].
  rewrite seq_S, fmap_app, sum_list_with_app, IH. simpl.
  rewrite length_take, length_drop. lia.
Qed.

Lemma page_of_validated req v w p :
  getAuditLogsSchema_validate (query req) = inr v ->
  connected (db w) = true -> no_pattern_filter v ->
  (1 <= p <= max_safe_integer)%Z ->
  page_items (getAuditLogs (on_page req p) w)
  = join_user (Users (db w)) <$>
      take (Z.to_nat (limit v))
        (drop (Z.to_nat ((p - 1) * limit v)) (selected v (db w))).
Proof.
  intros Hv Hc Hno Hp.
  destruct (validated_on_page _ _ p Hv Hp) as (v' & Hv' & Hpage & Hlimit & Hwhere).
  assert (Hno' : no_pattern_filter v').
  { apply uses_iLike_list_where. rewrite Hwhere. now apply uses_iLike_list_where. }
  rewrite (getAuditLogs_validated (on_page req p) v' w Hv' Hc Hno').
  unfold page_items, selected. simpl. now rewrite Hpage, Hlimit, Hwhere.
Qed.

(** A page number that is no safe integer is refused. *)
Lemma page_beyond_safe req w p :
  (max_safe_integer < p)%Z -> page_items (getAuditLogs (on_page req p) w) = [].
Proof.
  intros Hp. unfold getAuditLogs, on_page, with_query, with_page.
  unfold getAuditLogsSchema_validate, and_then, check_number. cbn [query q_page].
  destruct (Z.ltb_spec max_safe_integer (Z.abs p)); [reflexivity|lia].
Qed.

(** No page after the last holds an item. *)
Lemma page_after_the_last req v w pages p :
  getAuditLogsSchema_validate (query req) = inr v ->
  connected (db w) = true -> no_pattern_filter v ->
  (Z.of_nat (length (selected v (db w))) <= pages * limit v)%Z ->
  (0 <= pages < p)%Z ->
  page_items (getAuditLogs (on_page req p) w) = [].
Proof.
  intros Hv Hc Hno Hpages Hp.
  destruct (validated_bounds _ _ Hv) as [_ Hl].
  destruct (Z.le_gt_cases p max_safe_integer) as [Hsafe|Hunsafe];
    [|apply page_beyond_safe; lia].
  rewrite (page_of_validated req v w p Hv Hc Hno) by lia.
  rewrite drop_ge; [now rewrite take_nil|]. nia.
Qed.

Example two_pages_of_january :
  (fun p => id <$> (fst <$> page_items (getAuditLogs (on_page two_per_page_request p)
                                          january_world)))
    <$> [1; 2; 3]%Z
  = [ [sample_uuid 3; sample_uuid 2]; [sample_uuid 1]; [] ].
Proof. vm_compute. reflexivity. Qed.

(** The pagination record of a list response, and the pages of its filter
    set: what the handler computes from the count the store returns. *)
Lemma pagination_of_validated req v w :
  getAuditLogsSchema_validate (query req) = inr v ->
  connected (db w) = true ->
  no_pattern_filter v ->
  countable (db w) ->
  exists items pg pages,
    getAuditLogs req w
    = (Ret {| status := 200; payload := AuditLogsBody items pg |}, w)
    /\ currentPage pg = page v /\ itemsPerPage pg = limit v
    /\ totalItems pg = Z.of_nat (length (matching (list_where v) (db w)))
    /\ totalPages pg = Num pages
    /\ ((pages - 1) * itemsPerPage pg < totalItems pg <= pages * itemsPerPage pg)%Z
    /\ hasNextPage pg = (currentPage pg <? pages)%Z
    /\ hasPreviousPage pg = (1 <? currentPage pg)%Z
    /\ Z.of_nat
         (sum_list ((fun p => length (page_items (getAuditLogs (on_page req p) w)))
                      <$> seqZ 1 pages))
       = totalItems pg
    /\ (forall p, (pages < p)%Z -> page_items (getAuditLogs (on_page req p) w) = []).
Proof.
  intros Hv Hc Hno Hcount.
  destruct (validated_bounds _ _ Hv) as [Hp Hl].
  set (rows := selected v (db w)).
  assert (Hrows : length rows = length (matching (list_where v) (db w)))
    by apply selected_length.
  assert (Hsmall : (Z.of_nat (length rows) <= max_safe_integer)%Z).
  { rewrite Hrows. unfold countable in Hcount. unfold matching.
    pose proof (filter_length_le (eval_where (Users (db w)) (list_where v))
                  (AuditLogs (db w))). lia. }
  destruct (ceil_div_spec (Z.of_nat (length rows)) (limit v)) as (pages & Hceil & Hpages);
    [lia|].
  do 2 eexists. exists pages.
  split; [apply (getAuditLogs_validated req v w Hv Hc Hno)|].
  unfold make_pagination. simpl. fold rows. rewrite Hceil. simpl.
  split; [reflexivity|]. split; [reflexivity|]. split; [now rewrite Hrows|].
  split; [reflexivity|]. split; [exact Hpages|].
  split; [reflexivity|]. split; [reflexivity|]. split.
  - unfold seqZ. rewrite <- list_fmap_compose.
    assert (Hpg : (0 <= pages)%Z) by nia.
    rewrite (list_fmap_ext _
               (fun i => length (take (Z.to_nat (limit v))
                                   (drop (i * Z.to_nat (limit v)) rows)))).
    + rewrite pages_cover. nia.
    + intros k i Hk. apply lookup_seq in Hk. destruct Hk as [-> Hk]. unfold compose.
      rewrite (page_of_validated req v w _ Hv Hc Hno) by nia.
      rewrite length_fmap. fold rows. do 3 f_equal. nia.
  - intros p Hlt. apply (page_after_the_last req v w pages p Hv Hc Hno); [|nia].
    fold rows. lia.
Qed.

(** C9.  The claim holds of every list response there is, and fails for the
    filter sets that get none.  [GET /api/audit-logs?action=login] has a valid
    page and limit and is answered 500: the [action] filter, like a non-empty
    [search], is compared with [Op.iLike], which the configured dialect
    rejects, so for such a filter set there is no paginated response at all.
    For every other validated filter set (on a table whose row count is a safe
    integer) the response carries [totalItems], the number of stored events
    the filters select, [totalPages = ceiling(totalItems / itemsPerPage)],
    [hasNextPage = (currentPage < totalPages)] and
    [hasPreviousPage = (currentPage > 1)]; the item counts of pages
    [1 .. totalPages] add up to [totalItems], and no later page holds an
    item. *)
Theorem pagination_invariant :
  validation_error (query action_filter_request) = None
  /\ getAuditLogs action_filter_request january_world
     = internal_error_answer "Get audit logs error:" january_world
  /\ (forall req v w,
        getAuditLogsSchema_validate (query req) = inr v ->
        connected (db w) = true ->
        ~ no_pattern_filter v ->
        getAuditLogs req w = internal_error_answer "Get audit logs error:" w)
  /\ (forall req v w,
        getAuditLogsSchema_validate (query req) = inr v ->
        connected (db w) = true ->
        no_pattern_filter v ->
        countable (db w) ->
        exists items pg pages,
          getAuditLogs req w
          = (Ret {| status := 200; payload := AuditLogsBody items pg |}, w)
          /\ currentPage pg = page v /\ itemsPerPage pg = limit v
          /\ totalItems pg = Z.of_nat (length (matching (list_where v) (db w)))
          /\ totalPages pg = Num pages
          /\ ((pages - 1) * itemsPerPage pg < totalItems pg <= pages * itemsPerPage pg)%Z
          /\ hasNextPage pg = (currentPage pg <? pages)%Z
          /\ hasPreviousPage pg = (1 <? currentPage pg)%Z
          /\ Z.of_nat
               (sum_list ((fun p => length (page_items (getAuditLogs (on_page req p) w)))
                            <$> seqZ 1 pages))
             = totalItems pg
          /\ (forall p, (pages < p)%Z ->
                        page_items (getAuditLogs (on_page req p) w) = [])).
Proof.
  split; [reflexivity|]. split; [reflexivity|].
  split; [exact getAuditLogs_pattern_filter|exact pagination_of_validated].
Qed.

(** C7, as stated, fails here.  A list query whose [startDate] (2025-02-01)
    is after its [endDate] (2025-01-01) passes validation and is answered with
    status 200 and an empty page: no ValidationError. *)
Lemma reversed_date_range_is_accepted :
  getAuditLogs reversed_range_request january_world
  = (Ret {| status := 200;
            payload := AuditLogsBody []
                         {| currentPage := 1; totalPages := Num 0; totalItems := 0;
                            itemsPerPage := 10; hasNextPage := false;
                            hasPreviousPage := false |} |},
     january_world).
Proof. vm_compute. reflexivity. Qed.

Lemma reversed_range_selects_nothing v d s e :
  f_startDate v = Some s -> f_endDate v = Some e -> (e < s)%Z ->
  selected v d = [].
Proof.
  intros Hs He Hlt. unfold selected.
  replace (List.filter _ _) with (@nil AuditLog); [reflexivity|].
  symmetry. induction (AuditLogs d) as [|row rows IH]; [reflexivity|].
  simpl. rewrite <- IH.
  unfold eval_where, list_where. simpl. rewrite Hs, He. simpl.
  destruct (Z.leb_spec s (timestamp row)); destruct (Z.leb_spec (timestamp row) e);
    try lia; now rewrite ?andb_false_r.
Qed.

(** The two dates are validated one by one: whatever ISO dates are given, the
    verdict is that on the rest of the query. *)
Lemma verdict_ignores_the_dates q a b :
  validation_error (with_dates q (ISODate a) (ISODate b))
  = validation_error (with_dates q (ISODate 0) (ISODate 0)).
Proof.
  unfold validation_error, getAuditLogsSchema_validate, and_then.
  change (unknown_keys (with_dates q (ISODate a) (ISODate b))) with (unknown_keys q).
  change (unknown_keys (with_dates q (ISODate 0) (ISODate 0))) with (unknown_keys q).
  cbn [with_dates q_page q_limit q_userId q_action q_targetType q_targetId
       q_startDate q_endDate q_search check_date].
  destruct (check_number "page" (q_page q) 1 1 None); [reflexivity|].
  destruct (check_number "limit" (q_limit q) 10 1 (Some 100%Z)); [reflexivity|].
  destruct (check_guid "userId" (q_userId q)); [reflexivity|].
  destruct (check_string "action" false (q_action q)); [reflexivity|].
  destruct (check_string "targetType" false (q_targetType q)); [reflexivity|].
  destruct (check_guid "targetId" (q_targetId q)); [reflexivity|].
  destruct (check_string "search" true (q_search q)); [reflexivity|].
  destruct (unknown_keys q); reflexivity.
Qed.

Lemma getAuditLogs_needs_the_store req v w :
  getAuditLogsSchema_validate (query req) = inr v ->
  connected (db w) = false ->
  getAuditLogs req w
  = (Ret {| status := 500; payload := InternalErrorBody |},
     with_console (console w ++ ["Get audit logs error:"]) w).
Proof.
  intros Hv Hc. unfold getAuditLogs. rewrite Hv.
  unfold AuditLog_findAndCountAll. unfold_M. now rewrite Hc.
Qed.

(** C7 (amended).  The list schema has no rule relating [startDate] and
    [endDate]: the verdict of the validator on a query is the same when its
    two ISO dates are exchanged.  A query that passes validation and has its
    [startDate] after its [endDate] is executed with both bounds.  It is
    answered with status 200, no items and [totalItems = 0] when the store is
    reachable and the query has no [action] filter and no non-empty [search];
    it is answered 500 when the store is unreachable, or when it has such a
    filter, which the configured dialect cannot evaluate.  It is never
    answered with a ValidationError. *)
Theorem reversed_date_range_returns_empty_page :
  forall req w,
    (forall a b,
        validation_error (with_dates (query req) (ISODate a) (ISODate b))
        = validation_error (with_dates (query req) (ISODate b) (ISODate a)))
    /\ (forall v s e,
          getAuditLogsSchema_validate (query req) = inr v ->
          f_startDate v = Some s -> f_endDate v = Some e -> (e < s)%Z ->
          (connected (db w) = true -> no_pattern_filter v ->
           getAuditLogs req w
           = (Ret {| status := 200;
                     payload := AuditLogsBody []
                                  {| currentPage := page v; totalPages := Num 0;
                                     totalItems := 0; itemsPerPage := limit v;
                                     hasNextPage := false;
                                     hasPreviousPage := (1 <? page v)%Z |} |}, w))
          /\ (connected (db w) = false \/ ~ no_pattern_filter v ->
              getAuditLogs req w = internal_error_answer "Get audit logs error:" w)).
Proof.
  intros req w. split.
  { intros a b. now rewrite (verdict_ignores_the_dates _ a b),
                            (verdict_ignores_the_dates _ b a). }
  intros v s e Hv Hs He Hlt. split.
  - intros Hc Hno.
    destruct (validated_bounds _ _ Hv) as [Hp Hl].
    rewrite (getAuditLogs_validated req v w Hv Hc Hno).
    rewrite (reversed_range_selects_nothing v (db w) s e Hs He Hlt).
    rewrite drop_nil, take_nil.
    unfold make_pagination, ceil_div.
    destruct (Z.eqb_spec (limit v) 0); [lia|].
    change (Z.of_nat (length (@nil AuditLog))) with 0%Z.
    change (- 0)%Z with 0%Z. rewrite Z.div_0_l by lia.
    change (- 0)%Z with 0%Z. unfold js_lt.
    destruct (Z.ltb_spec (page v) 0); [lia|]. reflexivity.
  - intros [Hc|Hp].
    + now apply (getAuditLogs_needs_the_store req v w).
    + destruct (connected (db w)) eqn:Hc.
      * now apply (getAuditLogs_pattern_filter req v w).
      * now apply (getAuditLogs_needs_the_store req v w).
Qed.

Lemma reversed_date_range_returns_empty_page_witness :
  response_status (getAuditLogs reversed_range_request january_world) = Some 200%Z
  /\ page_items (getAuditLogs reversed_range_request january_world) = [].
Proof.
  rewrite (proj1 (proj2 (reversed_date_range_returns_empty_page reversed_range_request
                           january_world)
                    {| page := 1; limit := 10; f_userId := None; f_action := None;
                       f_targetType := None; f_targetId := None;
                       f_startDate := Some 1738368000000%Z;
                       f_endDate := Some 1735689600000%Z; f_search := None |}
                    1738368000000 1735689600000
                    eq_refl eq_refl eq_refl eq_refl) eq_refl (conj eq_refl eq_refl)).
  split; reflexivity.
Defined.

(** ** The list-by-actor endpoint *)








(** Every mutating route of the station and reminder routers is instrumented
    through exactly one path, the read routes through none. *)
Lemma one_instrumentation_per_route :
  Forall (fun r => instrumented_once r = mutating r)
         (stations_router ++ backupReminders_router).
Proof. unfold stations_router, backupReminders_router. simpl. repeat constructor. Qed.

(** ** A few more evaluations of the model *)

Example getClientIP_forwarded :
  getClientIP create_station_request = "203.0.113.7".
Proof. reflexivity. Qed.

Example limit_above_maximum_is_refused :
  getAuditLogsSchema_validate (query list_request_150)
  = inl {| fe_field := "limit"; fe_rule := "number.max" |}.
Proof. reflexivity. Qed.

Example page_beyond_the_safe_integers_is_refused :
  validation_error (with_page empty_query 9007199254740993)
  = Some {| fe_field := "page"; fe_rule := "number.unsafe" |}
  /\ validation_error (with_page empty_query (-9007199254740993))
     = Some {| fe_field := "page"; fe_rule := "number.unsafe" |}.
Proof. split; reflexivity. Qed.

Example search_is_answered_500 :
  getAuditLogs
    (with_query alice_logs_request (with_search empty_query (Some "mrema")))
    january_world
  = internal_error_answer "Get audit logs error:" january_world.
Proof. reflexivity. Qed.

Example get_by_id_found_and_missing :
  response_status (getAuditLogById
                     (sample_request (actor alice) [("id", sample_uuid 2)] empty_query [])
                     january_world) = Some 200%Z
  /\ response_status (getAuditLogById
                        (sample_request (actor alice) [("id", "nope")] empty_query [])
                        january_world) = Some 404%Z.
Proof. split; vm_compute; reflexivity. Qed.

Example statistics_of_january :
  (getAuditLogStatistics (sample_request (actor alice) [] empty_query [])
     (with_events january_events
        {| db := sample_db; console := []; clock := 1736300000000;
           uuid_source := sample_uuid; uuid_drawn := 0; pending := [] |})).1
  = Ret {| status := 200;
           payload :=
             StatisticsBody
               {| totalLogs := 3; recentLogs := 3; period_days := 30;
                  actionStats := [("STATION_CREATED", 1%Z); ("STATION_UPDATED", 1%Z);
                                  ("USER_LOGIN", 1%Z)];
                  targetTypeStats := [("Station", 2%Z); ("User", 1%Z)];
                  userActivityStats := [((alice_id, Some (user_info alice)), 3%Z)];
                  dailyStats := [(20094%Z, 1%Z); (20093%Z, 1%Z); (20092%Z, 1%Z)] |} |}.
Proof. vm_compute. reflexivity. Qed.

(** * Further properties of the modelled code *)

(** ** [getClientIP] *)

Lemma first_entry_prefix s :
  exists rest, s = (first_entry s ++ rest)%string
               /\ (rest = ""%string \/ exists r, rest = String "," r).
Proof.
  induction s as [|c s IH]; simpl.
  - exists ""%string. auto.
  - destruct (Ascii.eqb_spec c ","%char) as [->|Hc].
    + exists (String "," s). split; [reflexivity|]. right. eauto.
    + destruct IH as (rest & Hs & Hrest). exists rest. split; [|exact Hrest].
      change (String c s = String c (first_entry s ++ rest)%string). now f_equal.
Qed.

Lemma first_entry_no_comma s a b :
  first_entry s <> (a ++ String "," b)%string.
Proof.
  revert a. induction s as [|c s IH]; intros a; simpl.
  - destruct a; discriminate.
  - destruct (Ascii.eqb_spec c ","%char) as [->|Hc].
    + destruct a; discriminate.
    + destruct a as [|c' a]; simpl.
      * intros [= -> _]. congruence.
      * intros [= _ H]. now apply IH in H.
Qed.

Lemma str_or_nonempty a b : b <> ""%string -> str_or a b <> ""%string.
Proof.
  intros Hb. unfold str_or, nonempty. destruct a as [s|]; [|exact Hb].
  destruct (String.eqb_spec s ""); simpl; auto.
Qed.

(** X1.  The address [getClientIP] returns is never empty.  It is the first
    comma-separated entry of [X-Forwarded-For] (a comma-free prefix of the
    header) whenever that entry is not empty; otherwise the connection's peer
    address when there is one, otherwise the socket's, otherwise
    ["0.0.0.0"]. *)
Theorem getClientIP_precedence :
  forall req,
    getClientIP req <> ""%string
    /\ (forall h, header_x_forwarded_for req = Some h ->
                  first_entry h <> ""%string ->
                  getClientIP req = first_entry h
                  /\ (exists rest, h = (getClientIP req ++ rest)%string
                                   /\ (rest = ""%string
                                       \/ exists r, rest = String "," r))
                  /\ forall a b, getClientIP req <> (a ++ String "," b)%string)
    /\ ((forall h, header_x_forwarded_for req = Some h -> first_entry h = ""%string) ->
        (forall a, connection_remoteAddress req = Some a -> a <> ""%string ->
                   getClientIP req = a)
        /\ ((forall a, connection_remoteAddress req = Some a -> a = ""%string) ->
            (forall a, socket_remoteAddress req = Some a -> a <> ""%string ->
                       getClientIP req = a)
            /\ ((forall a, socket_remoteAddress req = Some a -> a = ""%string) ->
                getClientIP req = "0.0.0.0"%string))).
Proof.
  intros req. split; [|split].
  - unfold getClientIP. repeat apply str_or_nonempty. discriminate.
  - intros h Hh Hne.
    assert (E : getClientIP req = first_entry h).
    { unfold getClientIP, str_or, nonempty. rewrite Hh. simpl.
      now destruct (String.eqb_spec (first_entry h) ""). }
    rewrite E. split; [reflexivity|]. split.
    + apply first_entry_prefix.
    + apply first_entry_no_comma.
  - intros Hx.
    assert (E1 : getClientIP req
                 = str_or (connection_remoteAddress req)
                     (str_or (socket_remoteAddress req) "0.0.0.0")).
    { unfold getClientIP. destruct (header_x_forwarded_for req) as [h|]; [|reflexivity].
      simpl. unfold str_or at 1, nonempty. now rewrite (Hx h eq_refl). }
    rewrite E1. split.
    + intros a Ha Hne. rewrite Ha. unfold str_or at 1, nonempty.
      now destruct (String.eqb_spec a "").
    + intros Hc.
      assert (E2 : str_or (connection_remoteAddress req)
                     (str_or (socket_remoteAddress req) "0.0.0.0")
                   = str_or (socket_remoteAddress req) "0.0.0.0").
      { destruct (connection_remoteAddress req) as [a|]; [|reflexivity].
        unfold str_or at 1, nonempty. now rewrite (Hc a eq_refl). }
      rewrite E2. split.
      * intros a Ha Hne. rewrite Ha. unfold str_or, nonempty.
        now destruct (String.eqb_spec a "").
      * intros Hs. destruct (socket_remoteAddress req) as [a|]; [|reflexivity].
        unfold str_or, nonempty. now rewrite (Hs a eq_refl).
Qed.

Lemma getClientIP_precedence_witness :
  getClientIP create_station_request = "203.0.113.7"%string
  /\ exists rest, "203.0.113.7, 10.0.0.1"%string
                  = (getClientIP create_station_request ++ rest)%string.
Proof.
  destruct (proj1 (proj2 (getClientIP_precedence create_station_request))
              "203.0.113.7, 10.0.0.1"%string eq_refl) as (E & (rest & Hrest & _) & _).
  - vm_compute. discriminate.
  - split; [exact E|]. exists rest. exact Hrest.
Defined.

(** ** The recorder on a store that accepts the insert *)

Lemma AuditLog_create_accepted c ts w uid tid ip :
  accepts_insert w uid ->
  call_userId c = VStr uid -> call_targetId c = VStr tid -> call_ipAddress c = VStr ip ->
  let row := recorded_row w uid (call_action c) (call_targetType c) tid ip ts in
  AuditLog_create c ts w = (Ret row, after_insert w row).
Proof.
  intros (Hc & Hw & [u Hu] & Hfresh) Hcu Hct Hci row.
  subst row. unfold AuditLog_create, after_insert. unfold_M.
  rewrite Hc, Hw, Hcu, Hct, Hci. simpl.
  rewrite Hu. simpl. rewrite Hfresh. simpl. rewrite ?Hc, ?Hw. reflexivity.
Qed.

Lemma createAuditLog_settle_accepted p w uid tid ip :
  accepts_insert w uid ->
  call_userId (pw_call p) = VStr uid -> call_targetId (pw_call p) = VStr tid ->
  call_ipAddress (pw_call p) = VStr ip ->
  createAuditLog_settle p w
  = (Ret tt, after_insert w (recorded_row w uid (call_action (pw_call p))
                               (call_targetType (pw_call p)) tid ip (pw_timestamp p))).
Proof.
  intros Ha Hu Ht Hi. unfold createAuditLog_settle, try_catch, bind.
  now rewrite (AuditLog_create_accepted _ _ _ uid tid ip Ha Hu Ht Hi).
Qed.

Lemma createAuditLog_accepted uid act kind tid ip w :
  accepts_insert w uid ->
  createAuditLog (VStr uid) act kind (VStr tid) (VStr ip) w
  = (Ret tt, after_insert w (recorded_row w uid act kind tid ip (clock w))).
Proof.
  intros Ha. unfold createAuditLog. unfold bind at 1. unfold new_Date.
  now rewrite (createAuditLog_settle_accepted _ w uid tid ip Ha).
Qed.

(** Whatever happens to an insert, the audit log afterwards is the audit log
    before with at most one row more. *)
Lemma AuditLog_create_at_most_one c ts w :
  let w' := (AuditLog_create c ts w).2 in
  exists new, AuditLogs (db w') = AuditLogs (db w) ++ new
              /\ (length new <= 1)%nat /\ pending w' = pending w.
Proof.
  unfold AuditLog_create. unfold_M.
  destruct (connected (db w)); simpl; [|exists []; rewrite app_nil_r; simpl; auto].
  destruct (AuditLogs_writable (db w)); simpl; [|exists []; rewrite app_nil_r; simpl; auto].
  destruct (as_string (call_userId c)); simpl; [|exists []; rewrite app_nil_r; simpl; auto].
  destruct (as_string (call_targetId c)); simpl; [|exists []; rewrite app_nil_r; simpl; auto].
  destruct (as_string (call_ipAddress c)); simpl; [|exists []; rewrite app_nil_r; simpl; auto].
  destruct (find_user _ _); simpl; [|exists []; rewrite app_nil_r; simpl; auto].
  destruct (existsb _ _); simpl; [exists []; rewrite app_nil_r; simpl; auto|].
  eexists. split; [reflexivity|]. simpl. auto.
Qed.

Lemma createAuditLog_at_most_one u a t tid ip w :
  exists w', createAuditLog u a t tid ip w = (Ret tt, w')
             /\ exists new, AuditLogs (db w') = AuditLogs (db w) ++ new
                            /\ (length new <= 1)%nat /\ pending w' = pending w.
Proof.
  unfold createAuditLog. unfold bind at 1. unfold new_Date.
  unfold createAuditLog_settle, try_catch, bind.
  match goal with |- context [AuditLog_create ?c ?ts w] =>
    pose proof (AuditLog_create_at_most_one c ts w) as H;
    destruct (AuditLog_create c ts w) as [[row|e] w1] end; simpl in H.
  - eauto.
  - eexists. split; [reflexivity|]. exact H.
Qed.

Lemma find_after_fresh {A} (f : A -> bool) l x :
  existsb f l = false -> List.find f (l ++ [x]) = if f x then Some x else None.
Proof.
  induction l as [|y l IH]; simpl; [reflexivity|].
  destruct (f y); simpl; [discriminate|]. exact IH.
Qed.

(** ** [logAuditEvent] *)

(** X2.  [logAuditEvent] never throws, whatever value is passed as its
    request, and adds at most one row to the audit log.  Given a request
    without an authenticated actor it does nothing at all; given a request
    with one it is the awaited [createAuditLog] for that actor and the
    request's client address. *)
Theorem logAuditEvent_contract :
  (forall req action targetType targetId w,
      exists w', logAuditEvent req action targetType targetId w = (Ret tt, w')
                 /\ pending w' = pending w
                 /\ exists new, AuditLogs (db w') = AuditLogs (db w) ++ new
                                /\ (length new <= 1)%nat)
  /\ (forall req action targetType targetId w,
        has_actor req = false ->
        logAuditEvent (Request_value req) action targetType targetId w = (Ret tt, w))
  /\ (forall req action targetType targetId w,
        has_actor req = true ->
        logAuditEvent (Request_value req) action targetType targetId w
        = createAuditLog (get_opt (req_user req) "userId") action targetType targetId
            (VStr (getClientIP req)) w).
Proof.
  split; [|split].
  - intros req a t tid w.
    assert (Hnone : exists new : list AuditLog,
               AuditLogs (db w) = AuditLogs (db w) ++ new /\ (length new <= 1)%nat).
    { exists []. rewrite app_nil_r. simpl. auto. }
    unfold logAuditEvent, try_catch, bind, lift.
    destruct (get req "user") as [user|e]; simpl; [|eauto].
    destruct (truthy user && truthy (get_opt user "userId")); simpl; [|eauto].
    destruct (getClientIP_any req) as [ip|e]; simpl; [|eauto].
    destruct (createAuditLog_at_most_one (get_opt user "userId") a t tid ip w)
      as (w' & -> & new & Hdb & Hlen & Hp).
    eexists. split; [reflexivity|]. split; [exact Hp|].
    exists new. auto.
  - intros req a t tid w Ha. unfold has_actor in Ha.
    unfold logAuditEvent, try_catch, bind, lift. simpl. now rewrite Ha.
  - intros. now apply logAuditEvent_given_the_request.
Qed.

Lemma logAuditEvent_contract_witness :
  logAuditEvent (Request_value anonymous_request) "STATION_CREATED" "Station"
    (VStr "s-1") sample_world = (Ret tt, sample_world)
  /\ logAuditEvent (Request_value create_station_request) "STATION_CREATED" "Station"
       (VStr "s-1") sample_world
     = createAuditLog (VStr alice_id) "STATION_CREATED" "Station" (VStr "s-1")
         (VStr "203.0.113.7") sample_world.
Proof.
  split.
  - apply (proj1 (proj2 logAuditEvent_contract)). reflexivity.
  - apply (proj2 (proj2 logAuditEvent_contract) create_station_request). reflexivity.
Defined.

(** ** Insert, then look up *)

(** X3.  On a store that accepts the insert, [createAuditLog] appends exactly
    one row carrying the given actor, action, target type, target id and
    address, stamped with the current time, and writes nothing to the
    diagnostics channel; [getAuditLogById] asked for that row's id then
    answers 200 with the row and its actor's details. *)
Theorem recorded_event_is_retrievable :
  forall uid act kind tid ip u req w,
    accepts_insert w uid ->
    find_user uid (Users (db w)) = Some u ->
    let row := recorded_row w uid act kind tid ip (clock w) in
    param req "id" = Some (id row) ->
    exists w',
      createAuditLog (VStr uid) act kind (VStr tid) (VStr ip) w = (Ret tt, w')
      /\ AuditLogs (db w') = AuditLogs (db w) ++ [row]
      /\ console w' = console w
      /\ getAuditLogById req w'
         = (Ret {| status := 200; payload := AuditLogBody (row, Some (user_info u)) |}, w').
Proof.
  intros uid act kind tid ip u req w Ha Hu row Hp.
  exists (after_insert w row).
  split; [now apply createAuditLog_accepted|].
  split; [reflexivity|]. split; [reflexivity|].
  destruct Ha as (Hc & _ & _ & Hfresh).
  unfold getAuditLogById, AuditLog_findByPk. rewrite Hp. unfold_M. simpl.
  rewrite Hc. simpl. rewrite (find_after_fresh _ _ _ Hfresh).
  simpl. rewrite String.eqb_refl. simpl.
  unfold join_user. simpl. now rewrite Hu.
Qed.

Lemma recorded_event_is_retrievable_witness :
  exists w',
    createAuditLog (VStr alice_id) "USER_LOGIN" "User" (VStr alice_id)
      (VStr "203.0.113.7") january_world = (Ret tt, w')
    /\ length (AuditLogs (db w')) = 4%nat
    /\ response_status (getAuditLogById (get_event_request (sample_uuid 0)) w')
       = Some 200%Z.
Proof.
  destruct (recorded_event_is_retrievable alice_id "USER_LOGIN" "User" alice_id
              "203.0.113.7" alice (get_event_request (sample_uuid 0)) january_world)
    as (w' & H1 & H2 & _ & H4).
  - repeat split; try reflexivity. now exists alice.
  - reflexivity.
  - reflexivity.
  - exists w'. split; [exact H1|]. split.
    + now rewrite H2.
    + unfold response_status. now rewrite H4.
Defined.

(** ** The interception path, end to end *)

(** One run of the replacement, settled. *)
Lemma send_records_one_event P action targetType getTargetId req res b w uid tid :
  success_status res = true ->
  get_opt (req_user req) "userId" = VStr uid -> uid <> ""%string ->
  resolve_targetId P getTargetId req res b = Ret (VStr tid) ->
  accepts_insert w uid ->
  pending w = [] ->
  run_pending (send P action targetType getTargetId req res b w).2
  = (Ret tt,
     after_insert w
       (recorded_row w uid action targetType tid (getClientIP req) (clock w))).
Proof.
  intros Hs Hid Hne Hr Ha Hp.
  assert (Hactor : has_actor req = true).
  { unfold has_actor. rewrite Hid. simpl.
    destruct (String.eqb_spec uid ""); [contradiction|].
    destruct (req_user req); simpl in *; try discriminate; reflexivity. }
  rewrite (send_dispatches P action targetType getTargetId req res b w (VStr tid)
             Hs Hactor Hr). simpl.
  unfold run_pending. simpl. rewrite Hp. simpl.
  unfold bind, try_catch.
  assert (Ha' : accepts_insert (with_pending [] (with_pending
                   [dispatched_write action targetType req (VStr tid) w] w)) uid)
    by exact Ha.
  rewrite (createAuditLog_settle_accepted _ _ uid tid (getClientIP req) Ha');
    [|exact Hid|reflexivity|reflexivity].
  unfold ret, after_insert, recorded_row. simpl. now rewrite Hp.
Qed.

(** X4.  An intercepted operation that answers through [res.json], as the
    handlers of this program do, or through [res.send] with a body the
    original [send] writes out itself (a text, a Buffer), records exactly one
    event.  When the status is 2xx, the actor exists, the target resolves to a
    string and the store accepts the insert, then after the detached write has
    settled the audit log holds exactly one more row: actor, configured
    action and target type, resolved target, client address, stamped with the
    time of the call; nothing else is pending and nothing was written to the
    diagnostics channel. *)
Theorem intercepted_operation_records_one_event :
  forall JSON_parse JSON_stringify action targetType getTargetId req res w uid tid,
    success_status res = true ->
    get_opt (req_user req) "userId" = VStr uid -> uid <> ""%string ->
    accepts_insert w uid ->
    pending w = [] ->
    let row := recorded_row w uid action targetType tid (getClientIP req) (clock w) in
    (forall v,
        resolve_targetId JSON_parse getTargetId req res (json_text JSON_stringify v)
        = Ret (VStr tid) ->
        run_pending (res_json JSON_parse JSON_stringify action targetType getTargetId
                       req res v w).2
        = (Ret tt, after_insert w row))
    /\ (forall b,
          handed_to_json b = None ->
          resolve_targetId JSON_parse getTargetId req res b = Ret (VStr tid) ->
          run_pending (res_send JSON_parse JSON_stringify action targetType getTargetId
                         req res b w).2
          = (Ret tt, after_insert w row)).
Proof.
  intros P S a t g req res w uid tid Hs Hid Hne Ha Hp row. split.
  - intros v Hr. unfold res_json.
    now apply (send_records_one_event P a t g req res _ w uid tid).
  - intros b Hb Hr. rewrite (res_send_once P S a t g req res b w Hb).
    now apply (send_records_one_event P a t g req res b w uid tid).
Qed.

Lemma intercepted_operation_records_one_event_witness :
  (fun r => (userId r, action r, targetType r, targetId r, ipAddress r))
    <$> AuditLogs (db (run_pending
                         (res_json sample_JSON_parse sample_JSON_stringify
                            "REMINDER_CREATED" "BackupReminder" None
                            post_reminder_request created_201
                            reminder_payload sample_world).2).2)
  = [(alice_id, "REMINDER_CREATED"%string, "BackupReminder"%string, "r-1"%string,
      "203.0.113.7"%string)].
Proof.
  rewrite (proj1 (intercepted_operation_records_one_event sample_JSON_parse
                    sample_JSON_stringify "REMINDER_CREATED" "BackupReminder" None
                    post_reminder_request created_201 sample_world alice_id "r-1"
                    eq_refl eq_refl ltac:(discriminate)
                    ltac:(repeat split; try reflexivity; now exists alice)
                    eq_refl) reminder_payload eq_refl).
  reflexivity.
Defined.

(** ** The items of a list response *)

(** X5.  A validated list query without an [action] filter and without a
    non-empty [search], while the store is reachable, returns at most [limit]
    items, and never more than 100; the items come newest first; each is a
    stored event joined with its actor's details, and each satisfies every
    filter of the query: equal [userId], [targetType] and [targetId],
    [timestamp] from [startDate] on and up to [endDate]. *)
Theorem list_items_are_filtered_and_newest_first :
  forall req v w,
    getAuditLogsSchema_validate (query req) = inr v ->
    connected (db w) = true ->
    no_pattern_filter v ->
    let items := page_items (getAuditLogs req w) in
    (length items <= Z.to_nat (limit v) <= 100)%nat
    /\ StronglySorted not_older (fst <$> items)
    /\ Forall (fun item : JoinedLog =>
                 item.1 ∈ AuditLogs (db w)
                 /\ item.2 = user_info <$> find_user (userId item.1) (Users (db w))
                 /\ (forall uid, q_userId (query req) = Some (Guid uid) ->
                                 uid <> ""%string -> userId item.1 = uid)
                 /\ (forall t, q_targetType (query req) = Some t ->
                               targetType item.1 = t)
                 /\ (forall tid, q_targetId (query req) = Some (Guid tid) ->
                                 tid <> ""%string -> targetId item.1 = tid)
                 /\ (forall s, q_startDate (query req) = Some (ISODate s) ->
                               (s <= timestamp item.1)%Z)
                 /\ (forall e, q_endDate (query req) = Some (ISODate e) ->
                               (timestamp item.1 <= e)%Z))
              items.
Proof.
  intros req v w Hv Hc Hno items.
  destruct (validated_bounds _ _ Hv) as [Hp Hl].
  destruct (validated_inv _ _ Hv)
    as (_ & _ & Huid & _ & Htt & Htid & Hsd & Hed & _ & _).
  assert (Hitems : items = join_user (Users (db w)) <$>
                     take (Z.to_nat (limit v))
                       (drop (Z.to_nat ((page v - 1) * limit v)) (selected v (db w)))).
  { unfold items. now rewrite (getAuditLogs_validated req v w Hv Hc Hno). }
  rewrite Hitems. split; [|split].
  - rewrite length_fmap, length_take. lia.
  - rewrite <- list_fmap_compose.
    replace (fst ∘ join_user (Users (db w))) with (@Datatypes.id AuditLog) by reflexivity.
    rewrite list_fmap_id.
    apply StronglySorted_take, StronglySorted_drop, newest_first_sorted.
  - apply Forall_forall. intros item Hin.
    apply list_elem_of_fmap in Hin. destruct Hin as (r & -> & Hr).
    apply window_rows_selected in Hr. destruct Hr as [Hstored Hwhere].
    apply eval_where_inv in Hwhere.
    destruct Hwhere as (Wu & Wtt & Wtid & Wge & Wle).
    unfold list_where in *. simpl in *.
    split; [exact Hstored|]. split; [reflexivity|].
    split; [|split; [|split; [|split]]].
    + intros uid Hq Hne. rewrite Hq in Huid. simpl in Huid. injection Huid as Huid.
      rewrite <- Huid, (truthy_string_nonempty _ Hne) in Wu. simpl in Wu.
      now apply String.eqb_eq in Wu.
    + intros t Hq. rewrite Hq in Htt. unfold check_string in Htt. simpl in Htt.
      rewrite orb_false_r in Htt. unfold nonempty in Htt.
      destruct (String.eqb_spec t ""); simpl in Htt; [discriminate|].
      injection Htt as Htt.
      rewrite <- Htt, (truthy_string_nonempty _ n) in Wtt. simpl in Wtt.
      now apply String.eqb_eq in Wtt.
    + intros tid Hq Hne. rewrite Hq in Htid. simpl in Htid. injection Htid as Htid.
      rewrite <- Htid, (truthy_string_nonempty _ Hne) in Wtid. simpl in Wtid.
      now apply String.eqb_eq in Wtid.
    + intros s Hq. rewrite Hq in Hsd. simpl in Hsd. injection Hsd as Hsd.
      rewrite <- Hsd in Wge. simpl in Wge. now apply Z.leb_le in Wge.
    + intros e Hq. rewrite Hq in Hed. simpl in Hed. injection Hed as Hed.
      rewrite <- Hed in Wle. simpl in Wle. now apply Z.leb_le in Wle.
Qed.

Lemma list_items_are_filtered_and_newest_first_witness :
  let items := page_items (getAuditLogs station_events_request january_world) in
  (length items <= 10)%nat
  /\ Forall (fun item : JoinedLog =>
               targetType item.1 = "Station"%string
               /\ (1736000000000 <= timestamp item.1)%Z) items
  /\ action <$> (fst <$> items) = ["STATION_UPDATED"; "STATION_CREATED"]%string.
Proof.
  destruct (list_items_are_filtered_and_newest_first station_events_request
              station_events_params january_world eq_refl eq_refl
              (conj eq_refl eq_refl))
    as ((Hlen & _) & _ & Hall).
  split; [exact Hlen|]. split; [|reflexivity].
  eapply Forall_impl; [exact Hall|].
  intros item (_ & _ & _ & Ht & _ & Hs & _). split.
  - now apply Ht.
  - now apply Hs.
Defined.

(** ** Pages *)

Lemma windows_concat {A B} (f : A -> B) (l : list A) (size count : nat) :
  mjoin ((fun i => f <$> take size (drop (i * size) l)) <$> seq 0 count)
  = f <$> take (count * size) l.
Proof.
  induction count as [|k IH]; [reflexivity|].
  rewrite seq_S, fmap_app, join_app, IH. simpl. rewrite app_nil_r.
  rewrite <- fmap_app, take_take_drop. do 2 f_equal. lia.
Qed.

Lemma filter_sublist {A} (p : A -> bool) l : List.filter p l `sublist_of` l.
Proof.
  induction l as [|x l IH]; simpl; [constructor|].
  destruct (p x); [now apply sublist_skip|now apply sublist_cons].
Qed.

(** Events with distinct timestamps that come newest first come strictly so. *)
Lemma distinct_newest_first l :
  NoDup (timestamp <$> l) -> StronglySorted not_older l -> StronglySorted newer l.
Proof.
  intros Hnd Hs. induction Hs as [|x l Hs IH Hx]; [constructor|].
  rewrite fmap_cons in Hnd. apply NoDup_cons in Hnd. destruct Hnd as [Hnotin Hnd].
  constructor; [now apply IH|].
  apply Forall_forall. intros y Hy.
  assert (Hle : not_older x y) by (rewrite Forall_forall in Hx; now apply Hx).
  unfold not_older in Hle. unfold newer.
  assert (timestamp y <> timestamp x).
  { intros E. apply Hnotin. rewrite <- E. now apply list_elem_of_fmap_2. }
  lia.
Qed.

Lemma selected_distinct v d :
  NoDup (timestamp <$> AuditLogs d) -> NoDup (timestamp <$> selected v d).
Proof.
  intros Hnd. unfold selected. rewrite newest_first_Permutation.
  eapply sublist_NoDup; [exact Hnd|]. apply fmap_sublist, filter_sublist.
Qed.

(** X6.  Paging loses and repeats nothing.  Take a validated list query
    without an [action] filter or non-empty [search], a reachable store whose
    row count is a safe integer, and stored events with pairwise different
    timestamps (the order of the answer is then fixed by the query).  The
    pages [1 .. totalPages], put one after the other, are the stored events
    the filters select, each once, strictly newest first; and no page after
    [totalPages] holds an item. *)
Theorem pages_partition_the_selection :
  forall req v w,
    getAuditLogsSchema_validate (query req) = inr v ->
    connected (db w) = true ->
    no_pattern_filter v ->
    countable (db w) ->
    NoDup (timestamp <$> AuditLogs (db w)) ->
    exists pg pages rows,
      response_pagination (getAuditLogs req w) = Some pg
      /\ totalPages pg = Num pages
      /\ rows ≡ₚ matching (list_where v) (db w)
      /\ StronglySorted newer rows
      /\ mjoin ((fun p => page_items (getAuditLogs (on_page req p) w)) <$> seqZ 1 pages)
         = join_user (Users (db w)) <$> rows
      /\ forall p, (pages < p)%Z ->
                   page_items (getAuditLogs (on_page req p) w) = [].
Proof.
  intros req v w Hv Hc Hno Hcount Hnd.
  destruct (validated_bounds _ _ Hv) as [Hp Hl].
  set (rows := selected v (db w)).
  assert (Hsmall : (Z.of_nat (length rows) <= max_safe_integer)%Z).
  { unfold rows. rewrite selected_length. unfold countable in Hcount. unfold matching.
    pose proof (filter_length_le (eval_where (Users (db w)) (list_where v))
                  (AuditLogs (db w))). lia. }
  destruct (ceil_div_spec (Z.of_nat (length rows)) (limit v)) as (pages & Hceil & Hpages);
    [lia|].
  eexists. exists pages, rows.
  split.
  { unfold response_pagination. now rewrite (getAuditLogs_validated req v w Hv Hc Hno). }
  unfold make_pagination. simpl. fold rows. split; [exact Hceil|].
  split; [|split; [|split]].
  - unfold rows, selected, matching. apply newest_first_Permutation.
  - apply distinct_newest_first; [now apply selected_distinct|].
    apply newest_first_sorted.
  - unfold seqZ. rewrite <- list_fmap_compose.
    rewrite (list_fmap_ext _
               (fun i => join_user (Users (db w)) <$>
                           take (Z.to_nat (limit v))
                             (drop (i * Z.to_nat (limit v)) rows))).
    + rewrite windows_concat. rewrite take_ge by nia. reflexivity.
    + intros k i Hk. apply lookup_seq in Hk. destruct Hk as [-> Hk]. unfold compose.
      rewrite (page_of_validated req v w _ Hv Hc Hno) by nia.
      fold rows. do 3 f_equal. nia.
  - intros p Hlt. apply (page_after_the_last req v w pages p Hv Hc Hno); [|nia].
    fold rows. lia.
Qed.

Lemma pages_partition_the_selection_witness :
  exists pg pages rows,
    response_pagination (getAuditLogs two_per_page_request january_world) = Some pg
    /\ totalPages pg = Num pages
    /\ rows ≡ₚ january_events
    /\ id <$> (fst <$> mjoin ((fun p => page_items
                                        (getAuditLogs (on_page two_per_page_request p)
                                           january_world)) <$> seqZ 1 pages))
       = id <$> rows.
Proof.
  destruct (pages_partition_the_selection two_per_page_request two_per_page_params
              january_world eq_refl eq_refl (conj eq_refl eq_refl))
    as (pg & pages & rows & H1 & H2 & H3 & _ & H5 & _).
  - vm_compute. discriminate.
  - vm_compute. repeat constructor; intros H; inversion H; subst;
      repeat match goal with
             | H : _ ∈ _ :: _ |- _ => inversion H; clear H; subst
             | H : _ ∈ [] |- _ => inversion H
             end.
  - exists pg, pages, rows. split; [exact H1|]. split; [exact H2|].
    split; [exact H3|].
    transitivity (id <$> (fst <$> (join_user (Users (db january_world)) <$> rows))).
    + do 2 f_equal. exact H5.
    + rewrite <- !list_fmap_compose. reflexivity.
Defined.

(** ** Validation of the list query *)

(** X7.  The list endpoint enforces its bounds before it touches the store.
    A [page] below 1 or beyond the safe integers is answered 400 naming
    [page]; with an acceptable page, a [limit] below 1 or above 100 is
    answered 400 naming [limit].  The rule reported is [number.unsafe] for a
    number outside the safe integers, otherwise [number.min] or [number.max].
    In both cases the store is not consulted (the answer is the same when it
    is unreachable) and nothing is logged. *)
Theorem page_and_limit_bounds_are_enforced :
  forall req w,
    (forall p, q_page (query req) = Some p ->
               (p < 1 \/ max_safe_integer < p)%Z ->
               getAuditLogs req w
               = (Ret {| status := 400;
                         payload :=
                           ValidationErrorBody
                             [{| fe_field := "page";
                                 fe_rule := if (max_safe_integer <? Z.abs p)%Z
                                            then "number.unsafe"
                                            else "number.min" |}] |},
                  w))
    /\ (forall l, (forall p, q_page (query req) = Some p ->
                             (1 <= p <= max_safe_integer)%Z) ->
                  q_limit (query req) = Some l -> (l < 1 \/ 100 < l)%Z ->
                  getAuditLogs req w
                  = (Ret {| status := 400;
                            payload :=
                              ValidationErrorBody
                                [{| fe_field := "limit";
                                    fe_rule := if (max_safe_integer <? Z.abs l)%Z
                                               then "number.unsafe"
                                               else if (l <? 1)%Z then "number.min"
                                                    else "number.max" |}] |},
                     w)).
Proof.
  intros req w. split.
  - intros p Hq Hp. unfold getAuditLogs, getAuditLogsSchema_validate, and_then, check_number.
    rewrite Hq. destruct (Z.ltb_spec max_safe_integer (Z.abs p)); [reflexivity|].
    destruct (Z.ltb_spec p 1); [reflexivity|lia].
  - intros l Hpage Hq Hl.
    unfold getAuditLogs, getAuditLogsSchema_validate, and_then.
    assert (Hok : exists pg, check_number "page" (q_page (query req)) 1 1 None = inr pg).
    { destruct (q_page (query req)) as [p|]; [|now exists 1%Z].
      specialize (Hpage p eq_refl). exists p.
      apply check_number_in_range; [lia|lia|discriminate]. }
    destruct Hok as [pg ->]. unfold check_number. rewrite Hq.
    destruct (Z.ltb_spec max_safe_integer (Z.abs l)); [reflexivity|].
    destruct (Z.ltb_spec l 1); [reflexivity|].
    destruct (Z.ltb_spec 100 l); [reflexivity|lia].
Qed.

Lemma page_and_limit_bounds_are_enforced_witness :
  response_status (getAuditLogs page_zero_request (disconnected january_world))
  = Some 400%Z
  /\ response_status (getAuditLogs limit_101_request january_world) = Some 400%Z.
Proof.
  split.
  - rewrite (proj1 (page_and_limit_bounds_are_enforced page_zero_request
                      (disconnected january_world)) 0%Z);
      [reflexivity|reflexivity|left; reflexivity].
  - rewrite (proj2 (page_and_limit_bounds_are_enforced limit_101_request january_world)
               101%Z); [reflexivity|discriminate|reflexivity|right; reflexivity].
Defined.

(** X8.  An empty [search] is accepted and filters nothing: the answer to a
    query with [search=] is the answer to the same query without [search]. *)
Theorem empty_search_filters_nothing :
  forall req w,
    q_search (query req) = Some ""%string ->
    getAuditLogs req w
    = getAuditLogs (with_query req (with_search (query req) None)) w.
Proof.
  intros req w Hs.
  unfold getAuditLogs, getAuditLogsSchema_validate, and_then.
  change (unknown_keys (query (with_query req (with_search (query req) None))))
    with (unknown_keys (query req)).
  unfold with_query, with_search.
  cbn [query q_page q_limit q_userId q_action q_targetType q_targetId q_startDate
       q_endDate q_search].
  rewrite Hs.
  destruct (check_number "page" (q_page (query req)) 1 1 None); [reflexivity|].
  destruct (check_number "limit" (q_limit (query req)) 10 1 (Some 100%Z)); [reflexivity|].
  destruct (check_guid "userId" (q_userId (query req))); [reflexivity|].
  destruct (check_string "action" false (q_action (query req))); [reflexivity|].
  destruct (check_string "targetType" false (q_targetType (query req))); [reflexivity|].
  destruct (check_guid "targetId" (q_targetId (query req))); [reflexivity|].
  destruct (check_date "startDate" (q_startDate (query req))); [reflexivity|].
  destruct (check_date "endDate" (q_endDate (query req))); [reflexivity|].
  simpl. destruct (unknown_keys (query req)); reflexivity.
Qed.

Lemma empty_search_filters_nothing_witness :
  page_items (getAuditLogs empty_search_request january_world)
  = page_items (getAuditLogs (sample_request (actor alice) [] empty_query [])
                  january_world)
  /\ length (page_items (getAuditLogs empty_search_request january_world)) = 3%nat.
Proof.
  rewrite (empty_search_filters_nothing empty_search_request january_world eq_refl).
  split; reflexivity.
Defined.

(** ** The list-by-actor endpoint, continued *)





(** ** [getAuditLogById] *)

(** X11.  Without an [id] parameter [getAuditLogById] answers 400 and does not
    touch the store.  With one, on a reachable store, it answers 200 exactly
    when a stored event has that id, and then returns such an event with its
    actor's details; otherwise it answers 404 "Audit log not found". *)
Theorem get_by_id_finds_exactly_the_stored_event :
  forall req w,
    (param req "id" = None ->
     getAuditLogById req w
     = (Ret {| status := 400; payload := MessageBody false "Audit log ID is required" |}, w))
    /\ (forall pk, param req "id" = Some pk -> connected (db w) = true ->
          (exists row, row ∈ AuditLogs (db w) /\ id row = pk
                       /\ getAuditLogById req w
                          = (Ret {| status := 200;
                                    payload := AuditLogBody
                                                 (row, user_info <$>
                                                         find_user (userId row)
                                                           (Users (db w))) |}, w))
          \/ ((forall row, row ∈ AuditLogs (db w) -> id row <> pk)
              /\ getAuditLogById req w
                 = (Ret {| status := 404;
                           payload := MessageBody false "Audit log not found" |}, w))).
Proof.
  intros req w. split.
  - intros Hp. unfold getAuditLogById. now rewrite Hp.
  - intros pk Hp Hc. unfold getAuditLogById, AuditLog_findByPk. rewrite Hp.
    unfold_M. rewrite Hc. simpl.
    destruct (List.find (fun r => String.eqb (id r) pk) (AuditLogs (db w)))
      as [row|] eqn:E; simpl.
    + left. apply find_some in E. destruct E as [Hin Heq].
      exists row. split; [now apply list_elem_of_In|].
      split; [now apply String.eqb_eq|reflexivity].
    + right. split; [|reflexivity].
      intros row Hin Heq. apply list_elem_of_In in Hin.
      pose proof (find_none _ _ E row Hin) as Hn. simpl in Hn.
      apply String.eqb_neq in Hn. contradiction.
Qed.

Lemma get_by_id_finds_exactly_the_stored_event_witness :
  (exists row, id row = sample_uuid 2
               /\ (getAuditLogById (get_event_request (sample_uuid 2)) january_world).1
                  = Ret {| status := 200;
                           payload := AuditLogBody (row, Some (user_info alice)) |})
  /\ response_status (getAuditLogById (get_event_request "missing") january_world)
     = Some 404%Z.
Proof.
  split.
  - destruct (proj2 (get_by_id_finds_exactly_the_stored_event
                       (get_event_request (sample_uuid 2)) january_world)
                (sample_uuid 2) eq_refl eq_refl)
      as [(row & Hin & Hid & E)|(Hnone & _)].
    + exists row. split; [exact Hid|]. rewrite E. simpl. do 3 f_equal.
      apply list_elem_of_In in Hin. vm_compute in Hin.
      destruct Hin as [<-|[<-|[<-|[]]]]; try discriminate Hid; reflexivity.
    + exfalso. apply (Hnone (event 2 "STATION_UPDATED" "Station" "s-1" 1736100000000)).
      * apply list_elem_of_In. vm_compute. auto.
      * reflexivity.
  - destruct (proj2 (get_by_id_finds_exactly_the_stored_event
                       (get_event_request "missing") january_world)
                "missing"%string eq_refl eq_refl)
      as [(row & Hin & Hid & _)|(_ & E)].
    + exfalso. apply list_elem_of_In in Hin. vm_compute in Hin.
      destruct Hin as [<-|[<-|[<-|[]]]]; discriminate Hid.
    + unfold response_status. now rewrite E.
Defined.

(** ** Statistics *)

Section Grouped.

Context {K : Type} `{EqDecision K} (key : AuditLog -> K).







Context (before : K * Z -> K * Z -> bool) (R : K * Z -> K * Z -> Prop).
Hypothesis before_spec : forall x y, before x y = true <-> R x y.
Hypothesis R_total : forall x y, R x y \/ R y x.
Hypothesis R_trans : forall x y z, R x y -> R y z -> R x z.









End Grouped.







(** ** [authorizeRole] *)

Lemma includes_spec allowedRoles v :
  includes allowedRoles v = true <-> exists name, v = VStr name /\ name ∈ allowedRoles.
Proof.
  unfold includes. split.
  - destruct v; try discriminate. intros H. apply existsb_exists in H.
    destruct H as (x & Hin & Heq). apply String.eqb_eq in Heq. subst x.
    eexists. split; [reflexivity|]. now apply list_elem_of_In.
  - intros (name & -> & Hin). apply existsb_exists. exists name.
    split; [now apply list_elem_of_In|]. apply String.eqb_refl.
Qed.

Lemma authorizeRole_cases allowedRoles req :
  authorizeRole allowedRoles req
  = if negb (truthy (req_user req)) then Ret (Respond unauthorized)
    else if includes allowedRoles (role_name req) then Ret Next
         else Ret (Respond forbidden).
Proof.
  unfold authorizeRole, role_name.
  destruct (req_user req) as [| |b|q|s|items|fields]; simpl; try reflexivity.
  now destruct (includes allowedRoles _).
Qed.

Lemma included_is_truthy allowedRoles req :
  includes allowedRoles (role_name req) = true -> truthy (req_user req) = true.
Proof.
  unfold role_name. destruct (req_user req); simpl; try discriminate. reflexivity.
Qed.

(** X13.  [authorizeRole(allowedRoles)] never throws and decides by the role
    name of [req.user] alone: it passes the request on exactly when
    [req.user.role.name] is a string that is one of [allowedRoles]; it answers
    401 "Unauthorized" exactly when [req.user] is missing or falsy, and 403
    "Insufficient permissions" in every other case, among them a user with no
    role and a role with no name. *)
Theorem authorizeRole_admits_exactly_the_allowed_roles :
  forall allowedRoles req,
    let allowed := exists name, role_name req = VStr name /\ name ∈ allowedRoles in
    (authorizeRole allowedRoles req = Ret Next <-> allowed)
    /\ (authorizeRole allowedRoles req = Ret (Respond unauthorized)
        <-> truthy (req_user req) = false)
    /\ (authorizeRole allowedRoles req = Ret (Respond forbidden)
        <-> truthy (req_user req) = true /\ ~ allowed).
Proof.
  intros allowedRoles req allowed. unfold allowed.
  rewrite authorizeRole_cases, <- includes_spec.
  pose proof (included_is_truthy allowedRoles req) as Hi.
  destruct (truthy (req_user req)); simpl;
    destruct (includes allowedRoles (role_name req)); simpl.
  - intuition discriminate.
  - intuition discriminate.
  - specialize (Hi eq_refl). discriminate.
  - intuition discriminate.
Qed.

(** X14.  The audit-log endpoints are for administrators only.  A request
    whose role name is not "admin" is answered 401 or 403 by every one of them
    without the handler running: nothing is read, written or logged, also when
    the store is unreachable.  A request whose role name is "admin" gets the
    handler's answer. *)
Theorem audit_log_endpoints_are_admin_only :
  forall h endpoint req w,
    auditLogs_endpoint h = Some endpoint ->
    (role_name req <> VStr "admin" ->
       (endpoint req w = (Ret unauthorized, w) /\ truthy (req_user req) = false)
       \/ (endpoint req w = (Ret forbidden, w) /\ truthy (req_user req) = true))
    /\ (role_name req = VStr "admin" ->
          exists handler, query_handler h = Some handler
                          /\ endpoint req w = handler req w).
Proof.
  intros h endpoint req w He. unfold auditLogs_endpoint in He.
  destruct (query_handler h) as [handler|]; [|discriminate].
  injection He as <-. unfold behind. rewrite authorizeRole_cases. split.
  - intros Hne.
    destruct (truthy (req_user req)); simpl; [right|left; auto].
    destruct (includes ["admin"] (role_name req)) eqn:Hi; [|auto].
    apply includes_spec in Hi. destruct Hi as (name & Hn & Hin).
    apply list_elem_of_singleton in Hin. subst name. contradiction.
  - intros Hadmin. exists handler. split; [reflexivity|].
    assert (Hi : includes ["admin"] (role_name req) = true).
    { apply includes_spec. exists "admin"%string. split; [exact Hadmin|].
      now apply list_elem_of_singleton. }
    now rewrite (included_is_truthy _ _ Hi), Hi.
Qed.

Lemma audit_log_endpoints_are_admin_only_witness :
  behind (authorizeRole ["admin"]) getAuditLogs operator_request (disconnected january_world)
  = (Ret forbidden, disconnected january_world)
  /\ behind (authorizeRole ["admin"]) getAuditLogs two_per_page_request january_world
     = getAuditLogs two_per_page_request january_world.
Proof.
  split.
  - destruct (audit_log_endpoints_are_admin_only H_getAuditLogs _ operator_request
                (disconnected january_world) eq_refl) as [[[H F]|[H _]] _].
    + vm_compute. discriminate.
    + vm_compute in F. discriminate.
    + exact H.
  - destruct (audit_log_endpoints_are_admin_only H_getAuditLogs _ two_per_page_request
                january_world eq_refl) as [_ H].
    destruct (H eq_refl) as (handler & Hq & E).
    injection Hq as <-. exact E.
Defined.

(** ** [createStation] and the stations table *)

(** A text has at most as many UTF-16 code units as bytes. *)
Lemma js_length_le s : (js_length s <= String.length s)%nat.
Proof.
  assert (H : forall n s, (String.length s <= n)%nat ->
                          (js_length s <= String.length s)%nat).
  { induction n as [|n IH]; intros [|c rest] Hn; cbn [js_length String.length] in *;
      try lia.
    destruct (nat_of_ascii c <? 128)%nat; [specialize (IH rest); lia|].
    destruct (nat_of_ascii c <? 192)%nat; [specialize (IH rest); lia|].
    destruct (nat_of_ascii c <? 240)%nat; [specialize (IH rest); lia|].
    destruct rest as [|c' rest']; [lia|].
    cbn [String.length] in *. specialize (IH rest'). lia. }
  now apply (H (String.length s)).
Qed.

Lemma check_text_inr field lo hi fields s :
  check_text field lo hi fields = inr s ->
  assoc field fields = VStr s
  /\ s <> ""%string
  /\ (lo <= js_length s)%nat
  /\ (forall h, hi = Some h -> (js_length s <= h)%nat).
Proof.
  unfold check_text. destruct (assoc field fields) as [| | | |t| |]; try discriminate.
  unfold nonempty. destruct (String.eqb_spec t ""); simpl; [discriminate|].
  destruct (Nat.ltb_spec (js_length t) lo); [discriminate|].
  destruct hi as [h|].
  - destruct (Nat.ltb_spec h (js_length t)); [discriminate|].
    intros [= <-]. repeat split; auto. now intros h' [= <-].
  - intros [= <-]. repeat split; auto. discriminate.
Qed.

Lemma createStationSchema_validate_inr fields name sn loc :
  createStationSchema_validate fields = inr (name, sn, loc) ->
  assoc "stationName" fields = VStr name
  /\ assoc "serialNumber" fields = VStr sn
  /\ assoc "location" fields = VStr loc.
Proof.
  unfold createStationSchema_validate, and_then.
  destruct (check_text "stationName" _ _ _) as [|a] eqn:Ha; [discriminate|].
  destruct (check_text "serialNumber" _ _ _) as [|b] eqn:Hb; [discriminate|].
  destruct (check_text "location" _ _ _) as [|c] eqn:Hc; [discriminate|].
  destruct (List.filter _ fields); [|discriminate].
  intros [= <- <- <-].
  apply check_text_inr in Ha, Hb, Hc. tauto.
Qed.

(** X15.  [createStation] never throws, leaves the users as they are and
    keeps serial numbers unique.  It answers 201 only after adding exactly one
    station, whose name, serial number and location are the strings of the
    body, whose creator is the [userId] of [req.user], an existing user, and
    whose id differs from every station's before; with any other status the
    stations are unchanged. *)
Theorem createStation_keeps_serial_numbers_unique :
  forall req w,
    NoDup (serialNumber <$> Stations (db w)) ->
    exists resp w',
      createStation req w = (Ret resp, w')
      /\ NoDup (serialNumber <$> Stations (db w'))
      /\ Users (db w') = Users (db w)
      /\ (st_status resp = 201%Z ->
            exists s,
              Stations (db w') = Stations (db w) ++ [s]
              /\ assoc "stationName" (req_body req) = VStr (stationName s)
              /\ assoc "serialNumber" (req_body req) = VStr (serialNumber s)
              /\ assoc "location" (req_body req) = VStr (location s)
              /\ get_opt (req_user req) "userId" = VStr (createdBy s)
              /\ is_Some (find_user (createdBy s) (Users (db w)))
              /\ Forall (fun s' => station_id s' <> station_id s) (Stations (db w)))
      /\ (st_status resp <> 201%Z -> Stations (db w') = Stations (db w)).
Proof.
  intros req w Hnd.
  unfold createStation, Station_findOne_serialNumber, Station_create, Station_findByPk.
  unfold_M.
  destruct (createStationSchema_validate (req_body req)) as [err|[[name sn] loc]] eqn:Hv;
    simpl.
  { eexists _, _. split; [reflexivity|]. simpl. repeat split; auto; discriminate. }
  apply createStationSchema_validate_inr in Hv. destruct Hv as (Hname & Hsn & Hloc).
  destruct (connected (db w)) eqn:Hc; simpl.
  2:{ eexists _, _. split; [reflexivity|]. simpl. repeat split; auto; discriminate. }
  destruct (List.find _ (Stations (db w))) eqn:Hfind; simpl.
  { eexists _, _. split; [reflexivity|]. simpl. repeat split; auto; discriminate. }
  destruct (get_opt (req_user req) "userId") as [| | | |uid| |] eqn:Hu; simpl;
    rewrite ?Hc; simpl;
    try (eexists _, _; split; [reflexivity|]; simpl; repeat split; auto; discriminate).
  destruct (find_user uid (Users (db w))) as [u|] eqn:Hfu; simpl.
  2:{ eexists _, _. split; [reflexivity|]. simpl. repeat split; auto; discriminate. }
  destruct (existsb _ _) eqn:Hex; simpl; rewrite ?Hc; simpl.
  { eexists _, _. split; [reflexivity|]. simpl. repeat split; auto; discriminate. }
  eexists _, _. split; [reflexivity|]. simpl.
  split; [|split; [reflexivity|split; [|intros H; now contradiction H]]].
  - rewrite fmap_app. apply NoDup_app. split; [exact Hnd|]. split.
    + intros x Hx Hx'. apply list_elem_of_singleton in Hx'. subst x.
      apply list_elem_of_fmap in Hx. destruct Hx as (s & Hs & Hin).
      apply list_elem_of_In in Hin.
      apply (find_none _ _ Hfind) in Hin. simpl in Hin.
      rewrite <- Hs, String.eqb_refl in Hin. discriminate.
    + simpl. apply NoDup_singleton.
  - intros _. eexists. split; [reflexivity|]. simpl.
    repeat split; auto.
    apply Forall_forall. intros s' Hin Heq.
    assert (Hin' : In s' (Stations (db w))) by now apply list_elem_of_In.
    assert (Hx : existsb (fun s => String.eqb (station_id s) (uuid_source w (uuid_drawn w))
                                   || String.eqb (serialNumber s) sn) (Stations (db w))
                 = true).
    { apply existsb_exists. exists s'. split; [exact Hin'|].
      rewrite Heq, String.eqb_refl. reflexivity. }
    rewrite Hx in Hex. discriminate.
Qed.

Lemma createStation_keeps_serial_numbers_unique_witness :
  exists resp w',
    createStation create_station_request sample_world = (Ret resp, w')
    /\ NoDup (serialNumber <$> Stations (db w'))
    /\ Users (db w') = [alice].
Proof.
  destruct (createStation_keeps_serial_numbers_unique create_station_request sample_world)
    as (resp & w' & E & Hnd & Hu & _).
  - simpl. apply NoDup_nil_2.
  - exists resp, w'. split; [exact E|]. split; [exact Hnd|exact Hu].
Defined.

(** ** [changePassword] and the users table *)

Lemma createAuditLog_keeps_tables u a t tid ip w :
  exists w', createAuditLog u a t tid ip w = (Ret tt, w')
             /\ Users (db w') = Users (db w)
             /\ Stations (db w') = Stations (db w)
             /\ exists new, AuditLogs (db w') = AuditLogs (db w) ++ new.
Proof.
  destruct (createAuditLog_returns u a t tid ip w) as [w' E].
  exists w'. split; [exact E|].
  unfold createAuditLog in E. unfold bind at 1 in E. unfold new_Date in E.
  apply createAuditLog_settle_prefix in E.
  destruct E as (new & H1 & H2 & H3 & _). eauto.
Qed.

Lemma changePasswordSchema_validate_inr fields cur new :
  changePasswordSchema_validate fields = inr (cur, new) ->
  assoc "currentPassword" fields = VStr cur
  /\ assoc "newPassword" fields = VStr new
  /\ (6 <= String.length new)%nat.
Proof.
  unfold changePasswordSchema_validate, and_then.
  destruct (check_text "currentPassword" _ _ _) as [|a] eqn:Ha; [discriminate|].
  destruct (check_text "newPassword" _ _ _) as [|b] eqn:Hb; [discriminate|].
  destruct (List.filter _ fields); [|discriminate].
  intros [= <- <-].
  apply check_text_inr in Ha, Hb.
  pose proof (js_length_le b). intuition lia.
Qed.

(** X16.  [changePassword] never throws and never touches the stations.  It
    answers 200 only when [req.user.userId] is the id of a stored user, the
    body's [currentPassword] matches that user's stored hash, and the body's
    [newPassword] has at least 6 characters; the users are then as before
    except that the records with that id carry the hash of the new password.
    With any other status the tables are as they were. *)
Theorem changePassword_changes_only_the_actors_password :
  forall bcrypt_compare bcrypt_hash req w,
    exists resp w',
      changePassword bcrypt_compare bcrypt_hash req w = (Ret resp, w')
      /\ Stations (db w') = Stations (db w)
      /\ (status resp <> 200%Z -> db w' = db w)
      /\ (status resp = 200%Z ->
            exists uid user cur new,
              get_opt (req_user req) "userId" = VStr uid
              /\ find_user uid (Users (db w)) = Some user
              /\ assoc "currentPassword" (req_body req) = VStr cur
              /\ assoc "newPassword" (req_body req) = VStr new
              /\ (6 <= String.length new)%nat
              /\ bcrypt_compare cur (password user) = true
              /\ Users (db w')
                 = (fun u => if String.eqb (user_id u) uid
                             then with_password (bcrypt_hash new) u else u)
                     <$> Users (db w)).
Proof.
  intros cmp hash req w. unfold changePassword, User_findByPk, User_update_password.
  unfold_M.
  destruct (negb (truthy (get_opt (req_user req) "userId"))) eqn:Ht.
  { eexists _, _. split; [reflexivity|]. simpl. repeat split; auto; discriminate. }
  destruct (changePasswordSchema_validate (req_body req)) as [err|[cur new]] eqn:Hv.
  { eexists _, _. split; [reflexivity|]. simpl. repeat split; auto; discriminate. }
  apply changePasswordSchema_validate_inr in Hv. destruct Hv as (Hcur & Hnew & Hlen).
  destruct (get_opt (req_user req) "userId") as [| | | |uid| |] eqn:Hu; simpl;
    try (destruct (connected (db w)); simpl;
         eexists _, _; (split; [reflexivity|]); simpl; repeat split; auto; discriminate).
  destruct (connected (db w)) eqn:Hc; simpl.
  2:{ eexists _, _. split; [reflexivity|]. simpl. repeat split; auto; discriminate. }
  destruct (find_user uid (Users (db w))) as [user|] eqn:Hfu; simpl.
  2:{ eexists _, _. split; [reflexivity|]. simpl. repeat split; auto; discriminate. }
  destruct (cmp cur (password user)) eqn:Hcmp; simpl.
  2:{ eexists _, _. split; [reflexivity|]. simpl. repeat split; auto; discriminate. }
  rewrite Hc. simpl.
  match goal with |- context [createAuditLog ?u ?a ?t ?tid ?ip ?w0] =>
    destruct (createAuditLog_keeps_tables u a t tid ip w0) as (w' & E & HU & HS & _)
  end.
  rewrite E. simpl in HU, HS.
  eexists _, _. split; [reflexivity|]. simpl.
  split; [exact HS|]. split; [intros H; now contradiction H|].
  intros _. exists uid, user, cur, new.
  repeat split; auto.
  rewrite HU. unfold find_user in Hfu. apply find_some in Hfu.
  destruct Hfu as [_ Hid]. apply String.eqb_eq in Hid. rewrite Hid. reflexivity.
Qed.

(** ** The query endpoints while the store is unreachable *)

(** X17.  While the store is unreachable no audit-log query throws or answers
    200 or 404.  A request that is rejected before the store is asked (a list
    query that fails validation, a missing [id] or [userId] path parameter) is
    still answered 400, with nothing logged; every other request is answered
    500 with the internal-error body and exactly one line on the diagnostics
    channel.  The store and the detached writes are as before. *)
Theorem queries_with_the_store_unreachable :
  forall h handler req w,
    query_handler h = Some handler ->
    connected (db w) = false ->
    exists resp w',
      handler req w = (Ret resp, w')
      /\ db w' = db w /\ pending w' = pending w
      /\ ((status resp = 400%Z /\ console w' = console w
           /\ ((h = H_getAuditLogs
                /\ exists e, getAuditLogsSchema_validate (query req) = inl e)
               \/ (h = H_getAuditLogById /\ param req "id" = None)
               \/ (h = H_getAuditLogsByUser /\ param req "userId" = None)))
          \/ (status resp = 500%Z /\ payload resp = InternalErrorBody
              /\ exists line, console w' = console w ++ [line])).
Proof.
  intros h handler req w Hq Hc.
  destruct h; simpl in Hq; try discriminate; injection Hq as <-.
  - unfold getAuditLogs, AuditLog_findAndCountAll, require_connection.
    destruct (getAuditLogsSchema_validate (query req)) as [e|v] eqn:Hv; unfold_M.
    + eexists _, _. split; [reflexivity|]. simpl. do 2 (split; [reflexivity|]).
      left. repeat split. left. split; [reflexivity|]. now exists e.
    + rewrite Hc. simpl.
      eexists _, _. split; [reflexivity|]. simpl. do 2 (split; [reflexivity|]).
      right. repeat split. now eexists.
  - unfold getAuditLogStatistics, AuditLog_count, require_connection. unfold_M.
    rewrite Hc. simpl.
    eexists _, _. split; [reflexivity|]. simpl. do 2 (split; [reflexivity|]).
    right. repeat split. now eexists.
  - unfold getAuditLogsByUser, User_findByPk, require_connection.
    destruct (param req "userId") as [uid|] eqn:Hp; unfold_M.
    + rewrite Hc. simpl.
      eexists _, _. split; [reflexivity|]. simpl. do 2 (split; [reflexivity|]).
      right. repeat split. now eexists.
    + eexists _, _. split; [reflexivity|]. simpl. do 2 (split; [reflexivity|]).
      left. repeat split. right. right. now split.
  - unfold getAuditLogById, AuditLog_findByPk, require_connection.
    destruct (param req "id") as [pk|] eqn:Hp; unfold_M.
    + rewrite Hc. simpl.
      eexists _, _. split; [reflexivity|]. simpl. do 2 (split; [reflexivity|]).
      right. repeat split. now eexists.
    + eexists _, _. split; [reflexivity|]. simpl. do 2 (split; [reflexivity|]).
      left. repeat split. right. left. now split.
Qed.

Lemma queries_with_the_store_unreachable_witness :
  response_status (getAuditLogStatistics statistics_request (disconnected january_world))
  = Some 500%Z
  /\ response_status (getAuditLogs page_zero_request (disconnected january_world))
     = Some 400%Z.
Proof.
  split.
  - destruct (queries_with_the_store_unreachable H_getAuditLogStatistics _
                statistics_request (disconnected january_world) eq_refl eq_refl)
      as (resp & w' & E & _ & _ & [(_ & _ & [[H _]|[[H _]|[H _]]])|(Hs & _)]);
      try discriminate H.
    unfold response_status. rewrite E. simpl. now rewrite Hs.
  - destruct (queries_with_the_store_unreachable H_getAuditLogs _
                page_zero_request (disconnected january_world) eq_refl eq_refl)
      as (resp & w' & E & _ & _ & [(Hs & _)|(Hs & _)]);
      unfold response_status; rewrite E; simpl; rewrite Hs; [reflexivity|].
    vm_compute in E. injection E as E _. rewrite <- E in Hs. discriminate Hs.
Defined.
